(** * Auto-Encoder-Py: a shallow embedding of the encoding pipeline

    Sources embedded here:
    - [src/resolution_handler.py]: [ResolutionHandler] (target resolution);
    - [src/encoding_config.py]: [EncodingConfigManager] (rate control,
      codec selection, FFmpeg parameter bag);
    - [src/hardware_detector.py]: vendor detection, the FFmpeg encoder
      probe and [HardwareDetector.get_recommended_encoder];
    - [src/video_encoder.py]: [VideoFile], [VideoEncoder.discover_video_files],
      the [set_*] methods, [VideoEncoder.encode_single_file],
      [VideoEncoder.encode_batch], [VideoEncoder.cleanup_failed_files];
    - [src/progress_display.py]: [ProgressDisplay] session bookkeeping;
    - [src/main.py]: the yes/no and encoding-method prompts.

    Python floats are IEEE-754 binary64 numbers; they are modelled with the
    kernel's primitive floats, so [int(w * scale)] is computed exactly as
    CPython computes it. *)

From Stdlib Require Import ZArith Lia Bool List String Ascii.
From Stdlib Require Import PrimFloat SpecFloat FloatOps FloatAxioms.
From stdpp Require Import base gmap strings.

Import ListNotations.
Open Scope Z_scope.
#[local] Set Warnings "-inexact-float".

(* ------------------------------------------------------------------ *)
(** ** Python runtime helpers *)

Module Py.

(** [float(n)] for a Python [int]: the nearest binary64 value (ties to
    even), as CPython rounds. *)
Definition float_of_Z (n : Z) : float :=
  SF2Prim (binary_normalize prec emax n 0 false).

(** [int(x)] for a Python [float]: truncation toward zero; [None] stands
    for the [ValueError]/[OverflowError] raised on [nan] and infinities. *)
Definition int_of_float (x : float) : option Z :=
  match Prim2SF x with
  | S754_zero _ => Some 0
  | S754_infinity _ => None
  | S754_nan => None
  | S754_finite s m e =>
      let v := if 0 <=? e then Z.pos m * 2 ^ e else Z.pos m / 2 ^ (- e) in
      Some (if s then - v else v)
  end.

(** [a / b] on two Python [int]s (true division). For operands below 2^53,
    which covers every video dimension, both convert exactly and the
    quotient is the correctly rounded one, as in CPython. *)
Definition truediv_int (a b : Z) : float :=
  PrimFloat.div (float_of_Z a) (float_of_Z b).

(** [n * x] for a Python [int] [n] and a [float] [x]. *)
Definition mul_int_float (n : Z) (x : float) : float :=
  PrimFloat.mul (float_of_Z n) x.

(** Builtins [max(a, b)] and [min(a, b)] on two floats: the first argument
    is returned unless the second compares strictly greater (resp. less). *)
Definition fmax (a b : float) : float := if PrimFloat.ltb a b then b else a.
Definition fmin (a b : float) : float := if PrimFloat.ltb b a then b else a.

(** [str(n)] for a Python [int]. *)
Fixpoint digits_of_nat (fuel : nat) (n : N) (acc : string) : string :=
  match fuel with
  | O => acc
  | S fuel' =>
      let d := N.modulo n 10 in
      let acc' := String (ascii_of_N (48 + d)) acc in
      if (n <? 10)%N then acc' else digits_of_nat fuel' (N.div n 10) acc'
  end.

Definition str_of_Z (z : Z) : string :=
  let s := digits_of_nat 64 (Z.to_N (Z.abs z)) EmptyString in
  if z <? 0 then String "-" s else s.

(** [sub in s] on Python strings. *)
Fixpoint is_prefix (p s : string) : bool :=
  match p, s with
  | EmptyString, _ => true
  | String a p', String b s' => Ascii.eqb a b && is_prefix p' s'
  | String _ _, EmptyString => false
  end.

Fixpoint contains (sub s : string) : bool :=
  match s with
  | EmptyString => is_prefix sub s
  | String _ s' => is_prefix sub s || contains sub s'
  end.

End Py.

(* ------------------------------------------------------------------ *)
(** ** [resolution_handler.py] *)

Module Resolution.

Record VideoResolution := mkRes { width : Z; height : Z }.

Definition longest_side (r : VideoResolution) : Z := Z.max (width r) (height r).

Inductive ResolutionPreset := HD | FHD | QHD | UHD.

Definition preset_value (p : ResolutionPreset) : Z * Z :=
  match p with
  | HD => (1280, 720)
  | FHD => (1920, 1080)
  | QHD => (2560, 1440)
  | UHD => (3840, 2160)
  end.

Record ResolutionHandler := mkHandler {
  target_preset : ResolutionPreset;
  target_width : Z;
  target_height : Z;
  target_longest_side : Z
}.

(** [ResolutionHandler.__init__] (and [set_target_preset]). *)
Definition init (p : ResolutionPreset) : ResolutionHandler :=
  let '(w, h) := preset_value p in mkHandler p w h (Z.max w h).

Definition needs_resizing (self : ResolutionHandler) (cur : VideoResolution) : bool :=
  target_longest_side self <? longest_side cur.

(** [calculate_target_resolution]; [None] is the exception [int()] would
    raise on a non-finite product. *)
Definition calculate_target_resolution (self : ResolutionHandler)
    (cur : VideoResolution) : option VideoResolution :=
  if negb (needs_resizing self cur) then Some cur
  else
    let scale_factor := Py.truediv_int (target_longest_side self) (longest_side cur) in
    match Py.int_of_float (Py.mul_int_float (width cur) scale_factor),
          Py.int_of_float (Py.mul_int_float (height cur) scale_factor) with
    | Some new_width, Some new_height =>
        let new_width := new_width - new_width mod 2 in
        let new_height := new_height - new_height mod 2 in
        Some (mkRes new_width new_height)
    | _, _ => None
    end.

(** [get_ffmpeg_scale_filter]: [Some None] is the returned [None]. *)
Definition get_ffmpeg_scale_filter (self : ResolutionHandler)
    (cur : VideoResolution) : option (option string) :=
  match calculate_target_resolution self cur with
  | None => None
  | Some t =>
      if (width cur =? width t) && (height cur =? height t) then Some None
      else Some (Some ("scale=" ++ Py.str_of_Z (width t) ++ ":"
                       ++ Py.str_of_Z (height t))%string)
  end.

End Resolution.

(* ------------------------------------------------------------------ *)
(** ** [encoding_config.py] *)

Module Config.

Inductive EncodingMethod := VBR | CRF.
Inductive VideoCodec := H264 | H265.

(** Values held in the FFmpeg keyword dictionaries. *)
Inductive pyval := VStr (s : string) | VInt (z : Z).

(** A Python [dict] with [str] keys, kept in insertion order. *)
Definition dict := list (string * pyval).

(** [d[k] = v]: replaces the value in place or appends a new key. *)
Fixpoint dict_set (k : string) (v : pyval) (d : dict) : dict :=
  match d with
  | [] => [(k, v)]
  | (k', v') :: d' =>
      if String.eqb k k' then (k, v) :: d' else (k', v') :: dict_set k v d'
  end.

(** [d.update(e)]. *)
Definition dict_update (d e : dict) : dict :=
  fold_left (fun acc kv => dict_set (fst kv) (snd kv) acc) e d.

(** Python truthiness of an [Optional[str]]. *)
Definition truthy (o : option string) : bool :=
  match o with Some s => negb (String.eqb s "") | None => false end.

Record EncodingConfig := mkConfig {
  method : EncodingMethod;
  value : float;
  video_codec : string;
  codec_type : VideoCodec;
  hw_accel : option string;
  preset : string;
  additional_params : dict
}.

(** [EncodingConfigManager.__init__]. *)
Definition init_config : EncodingConfig :=
  mkConfig CRF (Py.float_of_Z 23) "libx265" H265 None "medium" [].

Definition set_crf_encoding (c : EncodingConfig) (crf_value : float)
    (p : string) : EncodingConfig :=
  let crf_value := Py.fmax (Py.float_of_Z 0) (Py.fmin (Py.float_of_Z 51) crf_value) in
  mkConfig CRF crf_value (video_codec c) (codec_type c) (hw_accel c) p
    (additional_params c).

Definition set_vbr_encoding (c : EncodingConfig) (bitrate_multiplier : float)
    (p : string) : EncodingConfig :=
  let m := Py.fmax 0.1%float (Py.fmin 10.0%float bitrate_multiplier) in
  mkConfig VBR m (video_codec c) (codec_type c) (hw_accel c) p
    (additional_params c).

Definition set_hardware_acceleration (c : EncodingConfig) (hw : option string)
    (vc : string) : EncodingConfig :=
  mkConfig (method c) (value c) vc (codec_type c) hw (preset c)
    (additional_params c).

Definition set_codec_type (c : EncodingConfig) (ct : VideoCodec)
    (hw : option string) : EncodingConfig :=
  let vc := video_codec c in
  let vc' :=
    if truthy hw then
      match ct with
      | H264 =>
          if Py.contains "nvenc" vc then "h264_nvenc"
          else if Py.contains "amf" vc then "h264_amf"
          else if Py.contains "qsv" vc then "h264_qsv"
          else "libx264"
      | H265 =>
          if Py.contains "nvenc" vc then "hevc_nvenc"
          else if Py.contains "amf" vc then "hevc_amf"
          else if Py.contains "qsv" vc then "hevc_qsv"
          else "libx265"
      end
    else match ct with H264 => "libx264" | H265 => "libx265" end in
  mkConfig (method c) (value c) vc' ct (hw_accel c) (preset c)
    (additional_params c).

Inductive error :=
  | ValueError (msg : string)
  | OverflowError.

(** Python's [int(s)] on the decimal strings ffprobe reports: an optional
    sign followed by digits. *)
Fixpoint parse_digits (s : string) (acc : Z) : option Z :=
  match s with
  | EmptyString => Some acc
  | String c s' =>
      let n := Z.of_N (N_of_ascii c) - 48 in
      if (0 <=? n) && (n <=? 9) then parse_digits s' (10 * acc + n) else None
  end.

Definition int_of_string (s : string) : option Z :=
  match s with
  | EmptyString => None
  | String "-" EmptyString | String "+" EmptyString => None
  | String "-" s' => option_map Z.opp (parse_digits s' 0)
  | String "+" s' => parse_digits s' 0
  | _ => parse_digits s 0
  end.

Definition calculate_target_bitrate (c : EncodingConfig) (original_bitrate : string)
    : Z + error :=
  match method c with
  | CRF => inr (ValueError "Can only calculate target bitrate for VBR encoding")
  | VBR =>
      match int_of_string original_bitrate with
      | None => inr (ValueError ("Invalid original bitrate: " ++ original_bitrate))
      | Some n =>
          match Py.int_of_float (Py.mul_int_float n (value c)) with
          | Some t => inl t
          | None => inr OverflowError
          end
      end
  end.

(** The dictionary returned by [generate_ffmpeg_params]; the
    [ffmpeg.input(input_file)] node is represented by its file name. *)
Record FFmpegParams := mkParams {
  input_config : string;
  output_file : string;
  video_params : dict;
  global_args : list string
}.

Definition nvenc_optimizations (c : EncodingConfig) : dict :=
  [("rc", VStr (match method c with VBR => "vbr" | CRF => "cqp" end));
   ("profile:v", VStr "main"); ("level", VStr "4.1");
   ("b_ref_mode", VStr "middle"); ("spatial_aq", VStr "1");
   ("temporal_aq", VStr "1")].

Definition amf_optimizations (c : EncodingConfig) : dict :=
  let o := [("profile:v", VStr "main"); ("level", VStr "4.1")] in
  let o := dict_set "rc" (VStr (match method c with VBR => "vbr_peak" | CRF => "cqp" end)) o in
  dict_set "quality" (VStr "balanced") o.

Definition qsv_optimizations : dict :=
  [("profile:v", VStr "main"); ("level", VStr "4.1");
   ("look_ahead", VStr "1"); ("look_ahead_depth", VStr "40")].

Definition x265_optimizations : dict :=
  [("profile:v", VStr "main"); ("level", VStr "4.1");
   ("x265-params", VStr "aq-mode=3:aq-strength=0.8:deblock=1,1")].

(** [generate_ffmpeg_params], as a method on the manager's state: it
    returns the result (or the exception raised) together with the state
    after the call. *)
Definition generate_ffmpeg_params (c : EncodingConfig) (input_file output : string)
    (original_bitrate scale_filter : option string)
    : (FFmpegParams + error) * EncodingConfig :=
  let ga := if truthy (hw_accel c) then
              ["-hwaccel"; match hw_accel c with Some h => h | None => "" end]
            else [] in
  let vc := video_codec c in
  let vp := [("vcodec", VStr vc)] in
  let vp := if negb (Py.contains "amf" vc) && negb (Py.contains "qsv" vc)
            then dict_set "preset" (VStr (preset c)) vp else vp in
  let rate : dict + error :=
    match method c with
    | CRF =>
        match Py.int_of_float (value c) with
        | Some q => inl (dict_set "crf" (VInt q) vp)
        | None => inr OverflowError
        end
    | VBR =>
        match original_bitrate with
        | Some b =>
            if truthy original_bitrate then
              match calculate_target_bitrate c b with
              | inl t => inl (dict_set "b:v" (VStr (Py.str_of_Z t)) vp)
              | inr e => inr e
              end
            else inr (ValueError "Original bitrate required for VBR encoding")
        | None => inr (ValueError "Original bitrate required for VBR encoding")
        end
    end in
  match rate with
  | inr e => (inr e, c)
  | inl vp =>
      let vp := match scale_filter with
                | Some f => if truthy scale_filter then dict_set "vf" (VStr f) vp else vp
                | None => vp
                end in
      let vp :=
        if Py.contains "nvenc" vc then dict_update vp (nvenc_optimizations c)
        else if Py.contains "amf" vc then dict_update vp (amf_optimizations c)
        else if Py.contains "qsv" vc then dict_update vp qsv_optimizations
        else if Py.contains "x265" vc || Py.contains "libx265" vc
             then dict_update vp x265_optimizations
        else vp in
      let vp := dict_update vp (additional_params c) in
      (inl (mkParams input_file output vp ga), c)
  end.

End Config.

(* ------------------------------------------------------------------ *)
(** ** [hardware_detector.py]: the recommendation consumed at start-up *)

Module Hardware.

Record GPUInfo := mkGPU {
  gpu_name : string;
  vendor : string;
  supports_nvenc : bool;
  supports_vce : bool;
  supports_qsv : bool
}.

Record Recommendation := mkRec {
  rec_hw_accel : option string;
  rec_video_codec : string;
  rec_description : string
}.

Definition default_recommendation : Recommendation :=
  mkRec None "libx265" "Software encoding (CPU only)".

(** The loop of [get_recommended_encoder]: NVIDIA and AMD matches [break],
    an Intel match does not. *)
Fixpoint recommend_loop (gpus : list GPUInfo) (r : Recommendation) : Recommendation :=
  match gpus with
  | [] => r
  | g :: gs =>
      if String.eqb (vendor g) "NVIDIA" && supports_nvenc g then
        mkRec (Some "cuda") "hevc_nvenc" ("NVIDIA NVENC on " ++ gpu_name g)
      else if String.eqb (vendor g) "AMD" && supports_vce g then
        mkRec (Some "auto") "hevc_amf" ("AMD VCE on " ++ gpu_name g)
      else if String.eqb (vendor g) "Intel" && supports_qsv g then
        recommend_loop gs (mkRec (Some "qsv") "hevc_qsv" ("Intel QuickSync on " ++ gpu_name g))
      else recommend_loop gs r
  end.

Definition get_recommended_encoder (gpus : list GPUInfo) : Recommendation :=
  recommend_loop gpus default_recommendation.

End Hardware.

(** [VideoEncoder._apply_hardware_recommendations]. *)
Definition apply_hardware_recommendations (rec : Hardware.Recommendation)
    (c : Config.EncodingConfig) : Config.EncodingConfig :=
  if Config.truthy (Hardware.rec_hw_accel rec) then
    let c := Config.set_hardware_acceleration c (Hardware.rec_hw_accel rec)
               (Hardware.rec_video_codec rec) in
    if Py.contains "h264" (Hardware.rec_video_codec rec)
    then Config.set_codec_type c Config.H264 (Hardware.rec_hw_accel rec)
    else Config.set_codec_type c Config.H265 (Hardware.rec_hw_accel rec)
  else c.

(** The encoding configuration a fresh [VideoEncoder] holds after its
    constructor, on a machine whose detector reports [gpus]. *)
Definition encoder_init_config (gpus : list Hardware.GPUInfo) : Config.EncodingConfig :=
  apply_hardware_recommendations (Hardware.get_recommended_encoder gpus)
    Config.init_config.

(* ------------------------------------------------------------------ *)
(** ** The file system seen by [video_encoder.py] *)

Module FS.

(** Existing files with their sizes in bytes, and the paths whose removal
    the operating system refuses (permissions, locks). *)
Record FS := mkFS {
  files : gmap string Z;
  undeletable : gset string
}.

Definition exists_ (fs : FS) (p : string) : bool :=
  match files fs !! p with Some _ => true | None => false end.

Definition getsize (fs : FS) (p : string) : option Z := files fs !! p.

(** [os.remove(p)]; [None] is the [OSError] it raises. *)
Definition remove (fs : FS) (p : string) : option FS :=
  if exists_ fs p && negb (bool_decide (p ∈ undeletable fs))
  then Some (mkFS (delete p (files fs)) (undeletable fs))
  else None.

(** [try: os.remove(p) except: pass]. *)
Definition try_remove (fs : FS) (p : string) : FS :=
  match remove fs p with Some fs' => fs' | None => fs end.

Definition write (fs : FS) (p : string) (size : Z) : FS :=
  mkFS (<[p := size]> (files fs)) (undeletable fs).

End FS.

(* ------------------------------------------------------------------ *)
(** ** [video_encoder.py]: [VideoFile] *)

Module Video.

(** One stream of an [ffmpeg.probe] answer, with the keys the code reads. *)
Record Stream := mkStream {
  codec_type : string;
  bit_rate : option string;
  codec_name : option string;
  s_width : option Z;
  s_height : option Z
}.

(** An [ffmpeg.probe] answer: its streams, and [None] when the answer has
    no ['format'] key, [Some b] with [b = probe['format'].get('bit_rate')]
    otherwise. *)
Record Probe := mkProbe {
  streams : list Stream;
  format_bit_rate : option (option string)
}.

Record VideoFile := mkVideoFile {
  file_path : string;
  size_bytes : Z;
  bitrate : option string;
  resolution : option string;
  codec : option string;
  error : option string
}.

(** The probe retry loop: up to three attempts, the first answer wins;
    [None] in [attempts] is an attempt that raised. *)
Fixpoint probe_with_retries (n : nat) (attempts : list (option Probe)) : option Probe :=
  match n, attempts with
  | O, _ | _, [] => None
  | S n', Some p :: _ => Some p
  | S n', None :: rest => probe_with_retries n' rest
  end.

Fixpoint first_video_stream (ss : list Stream) : option Stream :=
  match ss with
  | [] => None
  | s :: ss' => if String.eqb (codec_type s) "video" then Some s else first_video_stream ss'
  end.

(** [VideoFile.__init__] with [_load_file_info]: [size] is what
    [os.path.getsize] returns ([None] when it raises). The duration
    fallbacks catch their own errors and set neither [error] nor
    [bitrate]; they are left out. *)
Definition load (path : string) (size : option Z) (attempts : list (option Probe))
    : VideoFile :=
  match size with
  | None => mkVideoFile path 0 None None None (Some "getsize failed")
  | Some sz =>
      match probe_with_retries 3 attempts with
      | None => mkVideoFile path sz None None None (Some "FFmpeg probe failed")
      | Some p =>
          match first_video_stream (streams p) with
          | None => mkVideoFile path sz None None None None
          | Some vs =>
              let br := bit_rate vs in
              let br := if negb (Config.truthy br) then
                          match format_bit_rate p with
                          | Some fb => fb
                          | None => br
                          end
                        else br in
              let w := match s_width vs with Some w => w | None => 0 end in
              let h := match s_height vs with Some h => h | None => 0 end in
              mkVideoFile path sz br
                (Some (Py.str_of_Z w ++ "x" ++ Py.str_of_Z h)%string)
                (codec_name vs) None
          end
      end
  end.

Definition is_valid (vf : VideoFile) : bool :=
  match error vf, bitrate vf with None, Some _ => true | _, _ => false end.

(** [rfind] of a character: the suffix after its last occurrence and the
    prefix before it. *)
Fixpoint split_last (c : ascii) (s : string) : option (string * string) :=
  match s with
  | EmptyString => None
  | String a s' =>
      match split_last c s' with
      | Some (pre, post) => Some (String a pre, post)
      | None => if Ascii.eqb a c then Some (EmptyString, s') else None
      end
  end.

(** [Path(p).name], [Path(p).parent] (as [None] when it is ["."]). *)
Definition name_of (p : string) : option string * string :=
  match split_last "/" p with
  | Some (dir, name) => (Some dir, name)
  | None => (None, p)
  end.

(** [Path.suffix] and [Path.stem]: the suffix starts at the last dot,
    unless that dot opens the name or ends it. *)
Definition stem_suffix (name : string) : string * string :=
  match split_last "." name with
  | Some (pre, post) =>
      if negb (String.eqb pre "") && negb (String.eqb post "")
      then (pre, String "." post) else (name, EmptyString)
  | None => (name, EmptyString)
  end.

Definition get_output_filename (vf : VideoFile) : string :=
  let '(dir, name) := name_of (file_path vf) in
  let '(stem, suffix) := stem_suffix name in
  let newname := (stem ++ "_encoded" ++ suffix)%string in
  match dir with
  | Some d => (d ++ "/" ++ newname)%string
  | None => newname
  end.

End Video.

(* ------------------------------------------------------------------ *)
(** ** [video_encoder.py]: [VideoEncoder] *)

Module Encoder.

Import Video.

(** The part of a [VideoEncoder] the embedded methods read. *)
Record VideoEncoder := mkEncoder {
  encoding_config : Config.EncodingConfig;
  resolution_handler : Resolution.ResolutionHandler
}.

(** [VideoEncoder.__init__] on a machine whose detector reports [gpus]. *)
Definition init (gpus : list Hardware.GPUInfo) : VideoEncoder :=
  mkEncoder (encoder_init_config gpus) (Resolution.init Resolution.FHD).

Definition SUPPORTED_EXTENSIONS : list string :=
  [".mp4"; ".avi"; ".mkv"; ".mov"; ".wmv"; ".flv"; ".webm"; ".m4v"].

Definition lower_ascii (a : ascii) : ascii :=
  let n := nat_of_ascii a in
  if (65 <=? n)%nat && (n <=? 90)%nat then ascii_of_nat (n + 32) else a.

Fixpoint lower (s : string) : string :=
  match s with
  | EmptyString => EmptyString
  | String a s' => String (lower_ascii a) (lower s')
  end.

(** A path yielded by [target_path.glob(pattern)], with what the file
    system and the prober answer for it. *)
Record Candidate := mkCandidate {
  c_path : string;
  c_is_file : bool;
  c_size : option Z;
  c_probes : list (option Probe)
}.

Definition candidate_filter (c : Candidate) : bool :=
  let suffix := snd (stem_suffix (snd (name_of (c_path c)))) in
  c_is_file c
  && existsb (String.eqb (lower suffix)) SUPPORTED_EXTENSIONS
  && negb (Py.contains "_encoded." (c_path c))
  && negb (Py.contains "_modified." (c_path c)).

(** [discover_video_files]: [inr] is the [ValueError] raised on a missing
    target directory; [globbed] is what the glob yields. *)
Definition discover_video_files (self : VideoEncoder) (target_exists : bool)
    (globbed : list Candidate) : list VideoFile + string :=
  if negb target_exists then inr "Target directory does not exist"
  else
    inl (fold_right
           (fun c acc =>
              if candidate_filter c then
                let vf := load (c_path c) (c_size c) (c_probes c) in
                if is_valid vf then vf :: acc else acc
              else acc)
           [] globbed).

(** How the external encoder process ends. *)
Inductive RunOutcome :=
  | Exited (code : Z) (written : option Z)
  | TimedOut (written : option Z)
  | SpawnFailed.

(** What the outside world answers during one [encode_single_file] call:
    [get_resolution_info] after its retries ([None] when it still reports
    an error, [Some sf] with the scale filter otherwise), the encoder run
    ([written] is the size of the output file it leaves, if any), and
    whether a re-probe of the output finds a video stream. *)
Record JobEnv := mkJobEnv {
  je_resolution : option (option string);
  je_run : RunOutcome;
  je_output_has_video : bool
}.

(** The reasons [encode_single_file] stores in [result['error']]. *)
Inductive OutputProblem := OutputEmpty | OutputNotVideo.

Inductive EncodeError :=
  | InputMissing            (* "Input file does not exist: ..." *)
  | InvalidVideoFile        (* "Invalid video file: ..." *)
  | ResolutionError         (* the error of get_resolution_info *)
  | ParamsError (e : Config.error)  (* "Failed to generate FFmpeg parameters: ..." *)
  | LaunchError             (* "Failed to start FFmpeg process: ..." *)
  | FFmpegError (code : Z)  (* "FFmpeg error: ..." / "FFmpeg encoding failed: ..." *)
  | TimeoutError            (* "Encoding timed out after 1 hour" *)
  | OutputNotCreated        (* "Output file was not created" *)
  | OutputValidationFailed (p : OutputProblem).
                            (* "Output file validation failed: ..." *)

Definition is_output_validation_error (e : EncodeError) : bool :=
  match e with OutputNotCreated | OutputValidationFailed _ => true | _ => false end.

Record JobResult := mkResult {
  success : bool;
  input_file : string;
  output_file : string;
  encoded_size_bytes : Z;
  error : option EncodeError
}.

(** The [try] body of [encode_single_file], up to the first exception. *)
Definition encode_body (self : VideoEncoder) (vf : VideoFile) (out : string)
    (env : JobEnv) (fs : FS.FS) : (Z + EncodeError) * FS.FS :=
  if negb (FS.exists_ fs (file_path vf)) then (inr InputMissing, fs)
  else if match Video.error vf with Some _ => true | None => false end
  then (inr InvalidVideoFile, fs)
  else
    match je_resolution env with
    | None => (inr ResolutionError, fs)
    | Some scale_filter =>
        match fst (Config.generate_ffmpeg_params (encoding_config self)
                     (file_path vf) out (bitrate vf) scale_filter) with
        | inr e => (inr (ParamsError e), fs)
        | inl _ =>
            let after w := match w with Some sz => FS.write fs out sz | None => fs end in
            match je_run env with
            | SpawnFailed => (inr LaunchError, fs)
            | TimedOut w => (inr TimeoutError, after w)
            | Exited code w =>
                let fs := after w in
                if negb (code =? 0) then (inr (FFmpegError code), fs)
                else
                  match FS.getsize fs out with
                  | None => (inr OutputNotCreated, fs)
                  | Some 0 => (inr (OutputValidationFailed OutputEmpty), FS.try_remove fs out)
                  | Some sz =>
                      if je_output_has_video env then (inl sz, fs)
                      else (inr (OutputValidationFailed OutputNotVideo), FS.try_remove fs out)
                  end
            end
        end
    end.

(** [encode_single_file]: the body, then the [except] clause that records
    the error and removes the output file when it exists (a failing
    removal only prints a warning). *)
Definition encode_single_file (self : VideoEncoder) (vf : VideoFile)
    (output_path : option string) (env : JobEnv) (fs : FS.FS) : JobResult * FS.FS :=
  let out := match output_path with Some p => p | None => get_output_filename vf end in
  match encode_body self vf out env fs with
  | (inl sz, fs') => (mkResult true (file_path vf) out sz None, fs')
  | (inr e, fs') =>
      let fs'' := if FS.exists_ fs' out then FS.try_remove fs' out else fs' in
      (mkResult false (file_path vf) out 0 (Some e), fs'')
  end.

End Encoder.

(* ------------------------------------------------------------------ *)
(** ** [video_encoder.py]: [VideoEncoder.encode_batch] *)

Module Batch.

Import Video Encoder.

(** [processing_stats]; the float size totals are left out. [cancelled]
    stands for the ['cancelled'] key, present (and [True]) only when the
    cancel event was set. *)
Record Stats := mkStats {
  total_files : nat;
  processed_files : nat;
  failed_files : nat;
  failed_file_paths : list string;
  cancelled : bool
}.

(** When the key listener sets the shared cancel event. The event is
    cleared when the batch starts and never cleared again, so one moment
    describes it: [CancelBefore j] sets it after the check that precedes
    job [j - 1] and before the check that precedes job [j] (jobs are
    numbered from 1, as [enumerate(video_files, 1)] does; for a batch of
    [n] jobs, [j = n + 1] means after the loop, before the [finally]
    block, and a later [j] leaves the batch unaffected). *)
Inductive CancelSchedule := NoCancel | CancelBefore (j : nat).

(** [self._cancel_event.is_set()] at the check before job [i]; the check
    of the [finally] block is the one "before job [n + 1]". *)
Definition flag_at (sched : CancelSchedule) (i : nat) : bool :=
  match sched with NoCancel => false | CancelBefore j => (j <=? i)%nat end.

(** One [# Update statistics] step, with the optional source deletion. *)
Definition record (delete_originals : bool) (vf : VideoFile) (r : JobResult)
    (st : Stats) (fs : FS.FS) : Stats * FS.FS :=
  if success r then
    (mkStats (total_files st) (S (processed_files st)) (failed_files st)
       (failed_file_paths st) (cancelled st),
     if delete_originals then FS.try_remove fs (file_path vf) else fs)
  else
    (mkStats (total_files st) (processed_files st) (S (failed_files st))
       (failed_file_paths st ++ [file_path vf]) (cancelled st), fs).

(** The [for i, video_file in enumerate(video_files, 1)] loop. It returns
    the final stats and file system, the paths handed to
    [encode_single_file] in order, and the stats after each update. *)
Fixpoint batch_loop (self : VideoEncoder) (delete_originals : bool)
    (sched : CancelSchedule) (i : nat) (jobs : list (VideoFile * JobEnv))
    (st : Stats) (fs : FS.FS) : Stats * FS.FS * list string * list Stats :=
  match jobs with
  | [] => (st, fs, [], [])
  | (vf, env) :: rest =>
      if flag_at sched i then (st, fs, [], [])
      else
        let '(r, fs1) := encode_single_file self vf None env fs in
        let '(st1, fs2) := record delete_originals vf r st fs1 in
        let '(st', fs', att, tr) := batch_loop self delete_originals sched (S i) rest st1 fs2 in
        (st', fs', file_path vf :: att, st1 :: tr)
  end.

(** [encode_batch]: [inr] is the [ValueError] raised on an empty list.
    The trace starts with the freshly reset stats. *)
Definition encode_batch (self : VideoEncoder) (jobs : list (VideoFile * JobEnv))
    (delete_originals : bool) (sched : CancelSchedule) (fs : FS.FS)
    : (Stats * FS.FS * list string * list Stats) + string :=
  match jobs with
  | [] => inr "No video files to process"
  | _ =>
      let st0 := mkStats (length jobs) 0 0 [] false in
      let '(st, fs', att, tr) := batch_loop self delete_originals sched 1 jobs st0 fs in
      let st := if flag_at sched (S (length jobs))
                then mkStats (total_files st) (processed_files st) (failed_files st)
                       (failed_file_paths st) true
                else st in
      inl (st, fs', att, st0 :: tr)
  end.

End Batch.

(* ------------------------------------------------------------------ *)
(** ** Reference definitions the properties are stated with *)

Module Ref.

(** The resize rule in exact arithmetic: [floor(w * T / L)] for each side,
    then made even, with [L] the long edge and [T] the target long edge. *)
Definition exact_target_dims (T : Z) (r : Resolution.VideoResolution) : Z * Z :=
  let L := Resolution.longest_side r in
  let w := Resolution.width r * T / L in
  let h := Resolution.height r * T / L in
  (w - w mod 2, h - h mod 2).

(** Python's [round(x)] on a float: nearest integer, ties to even. *)
Definition round_float (x : float) : option Z :=
  match Prim2SF x with
  | S754_zero _ => Some 0
  | S754_infinity _ | S754_nan => None
  | S754_finite s m e =>
      let v :=
        if 0 <=? e then Z.pos m * 2 ^ e
        else
          let d := 2 ^ (- e) in
          let q := Z.pos m / d in
          match Z.compare (2 * (Z.pos m mod d)) d with
          | Lt => q
          | Gt => q + 1
          | Eq => if Z.even q then q else q + 1
          end in
      Some (if s then - v else v)
  end.

(** The hardware vendor family named by a codec id, and the codec id of a
    (family, vendor) pair: the crossing table of [set_codec_type]. *)
Inductive Vendor := NVENC | AMF | QSV | Software.

Definition vendor_of_codec (vc : string) : Vendor :=
  if Py.contains "nvenc" vc then NVENC
  else if Py.contains "amf" vc then AMF
  else if Py.contains "qsv" vc then QSV
  else Software.

Definition codec_id (ct : Config.VideoCodec) (v : Vendor) : string :=
  match ct, v with
  | Config.H264, NVENC => "h264_nvenc"
  | Config.H264, AMF => "h264_amf"
  | Config.H264, QSV => "h264_qsv"
  | Config.H264, Software => "libx264"
  | Config.H265, NVENC => "hevc_nvenc"
  | Config.H265, AMF => "hevc_amf"
  | Config.H265, QSV => "hevc_qsv"
  | Config.H265, Software => "libx265"
  end.

(** [d.get(k)] on a keyword dictionary. *)
Fixpoint dict_lookup (k : string) (d : Config.dict) : option Config.pyval :=
  match d with
  | [] => None
  | (k', v) :: d' => if String.eqb k k' then Some v else dict_lookup k d'
  end.

(** The configurations an [EncodingConfigManager] can hold: the initial
    one, changed only through its setters. *)
Inductive reachable : Config.EncodingConfig -> Prop :=
  | reach_init : reachable Config.init_config
  | reach_crf c x p : reachable c -> reachable (Config.set_crf_encoding c x p)
  | reach_vbr c x p : reachable c -> reachable (Config.set_vbr_encoding c x p)
  | reach_hw c hw vc : reachable c -> reachable (Config.set_hardware_acceleration c hw vc)
  | reach_codec c ct hw : reachable c -> reachable (Config.set_codec_type c ct hw).

End Ref.

(* ------------------------------------------------------------------ *)
(** ** Python text methods used by the prompts and the detectors *)

Module PyText.

Local Open Scope nat_scope.

(** Strings are read as Latin-1 text: one character per code point
    0-255. [str.isspace] on those code points. *)
Definition isspace (a : ascii) : bool :=
  let n := nat_of_ascii a in
  ((9 <=? n) && (n <=? 13)) || ((28 <=? n) && (n <=? 32))
  || (n =? 133) || (n =? 160).

Fixpoint lstrip (s : string) : string :=
  match s with
  | EmptyString => EmptyString
  | String a s' => if isspace a then lstrip s' else s
  end.

Fixpoint rstrip (s : string) : string :=
  match s with
  | EmptyString => EmptyString
  | String a s' =>
      let r := rstrip s' in
      if String.eqb r "" && isspace a then EmptyString else String a r
  end.

(** [s.strip()]. *)
Definition strip (s : string) : string := rstrip (lstrip s).

(** [str.lower] on a Latin-1 code point: A-Z and the accented capitals
    U+00C0-U+00DE (but not U+00D7) move up by 32. *)
Definition lower_char (a : ascii) : ascii :=
  let n := nat_of_ascii a in
  if ((65 <=? n) && (n <=? 90)) || ((192 <=? n) && (n <=? 222) && negb (n =? 215))
  then ascii_of_nat (n + 32) else a.

Fixpoint lower (s : string) : string :=
  match s with
  | EmptyString => EmptyString
  | String a s' => String (lower_char a) (lower s')
  end.

End PyText.

(* ------------------------------------------------------------------ *)
(** ** [hardware_detector.py]: detection *)

Module Detect.

Import Hardware.

(** [_determine_vendor]. *)
Definition determine_vendor (gpu_name : string) : string :=
  let l := PyText.lower gpu_name in
  if Py.contains "nvidia" l || Py.contains "geforce" l || Py.contains "quadro" l
  then "NVIDIA"
  else if Py.contains "amd" l || Py.contains "radeon" l then "AMD"
  else if Py.contains "intel" l then "Intel"
  else "Unknown".

Definition check_nvenc_support (gpu_name : string) : bool :=
  let l := PyText.lower gpu_name in
  existsb (fun series => Py.contains series l)
    ["gtx 10"; "gtx 16"; "rtx"; "quadro"; "tesla"; "titan"].

Definition check_vce_support (gpu_name : string) : bool :=
  let l := PyText.lower gpu_name in
  existsb (fun series => Py.contains series l) ["rx"; "r9"; "r7"; "vega"; "navi"; "rdna"].

Definition check_qsv_support (gpu_name : string) : bool :=
  Py.contains "intel" (PyText.lower gpu_name).

(** One GPU of the [GPUtil] branch of [_detect_gpus] (its [memory] field
    is not modelled). *)
Definition gputil_gpu (name : string) : GPUInfo :=
  let l := PyText.lower name in
  let g := mkGPU name (determine_vendor name) false false false in
  if Py.contains "nvidia" l || Py.contains "geforce" l || Py.contains "quadro" l then
    mkGPU name (vendor g) (check_nvenc_support name) false false
  else if Py.contains "amd" l || Py.contains "radeon" l then
    mkGPU name (vendor g) false (check_vce_support name) false
  else if Py.contains "intel" l then
    mkGPU name (vendor g) false false (check_qsv_support name)
  else g.

(** The [GPUtil] branch of [_detect_gpus] on the names [GPUtil.getGPUs()]
    reports. *)
Definition detect_gpus_gputil (names : list string) : list GPUInfo :=
  map gputil_gpu names.

(** [_check_ffmpeg_encoders]: [None] when [ffmpeg -encoders] fails (the
    exception is printed and the GPUs are left alone), [Some out] with its
    standard output otherwise. *)
Definition check_ffmpeg_encoders (encoders : option string) (gpus : list GPUInfo)
    : list GPUInfo :=
  match encoders with
  | None => gpus
  | Some e =>
      map (fun g =>
             if String.eqb (vendor g) "NVIDIA" then
               mkGPU (gpu_name g) (vendor g)
                 (Py.contains "h264_nvenc" e || Py.contains "hevc_nvenc" e)
                 (supports_vce g) (supports_qsv g)
             else if String.eqb (vendor g) "AMD" then
               mkGPU (gpu_name g) (vendor g) (supports_nvenc g)
                 (Py.contains "h264_amf" e || Py.contains "hevc_amf" e) (supports_qsv g)
             else if String.eqb (vendor g) "Intel" then
               mkGPU (gpu_name g) (vendor g) (supports_nvenc g) (supports_vce g)
                 (Py.contains "h264_qsv" e || Py.contains "hevc_qsv" e)
             else g) gpus
  end.

(** [HardwareDetector.__init__] when [GPUtil] is importable and answers:
    [_detect_gpus], then [_check_ffmpeg_encoders] ([_detect_cpu] touches
    no GPU). *)
Definition detect_gputil (names : list string) (encoders : option string)
    : list GPUInfo :=
  check_ffmpeg_encoders encoders (detect_gpus_gputil names).

(** The GPUs [get_recommended_encoder] stops at ([break]), and the Intel
    ones it records without stopping. *)
Definition stops_search (g : GPUInfo) : bool :=
  (String.eqb (vendor g) "NVIDIA" && supports_nvenc g)
  || (String.eqb (vendor g) "AMD" && supports_vce g).

Definition qsv_capable (g : GPUInfo) : bool :=
  String.eqb (vendor g) "Intel" && supports_qsv g.

End Detect.

(* ------------------------------------------------------------------ *)
(** ** [encoding_config.py]: quality presets *)

Module Presets.

Definition CRF_PRESETS : list (string * Z) :=
  [("ultra_high", 18); ("high", 23); ("medium", 28); ("low", 33); ("very_low", 38)].

Definition VBR_PRESETS : list (string * float) :=
  [("highest", 1.2%float); ("high", 1.0%float); ("medium", 0.75%float);
   ("low", 0.5%float); ("lowest", 0.25%float)].

(** [d.get(k, default)]. *)
Fixpoint assoc_get {A : Type} (k : string) (d : list (string * A)) (default : A) : A :=
  match d with
  | [] => default
  | (k', v) :: d' => if String.eqb k k' then v else assoc_get k d' default
  end.

Definition get_crf_from_preset (preset_name : string) : Z :=
  assoc_get (PyText.lower preset_name) CRF_PRESETS 23.

Definition get_vbr_from_preset (preset_name : string) : float :=
  assoc_get (PyText.lower preset_name) VBR_PRESETS 0.75%float.

End Presets.

(* ------------------------------------------------------------------ *)
(** ** [video_encoder.py]: the setters of [VideoEncoder] *)

Module EncoderOps.

Import Encoder.

Definition set_resolution_preset (self : VideoEncoder) (p : Resolution.ResolutionPreset)
    : VideoEncoder :=
  mkEncoder (encoding_config self) (Resolution.init p).

Definition set_encoding_method (self : VideoEncoder) (m : Config.EncodingMethod)
    (v : float) (p : string) : VideoEncoder :=
  let c := encoding_config self in
  mkEncoder (match m with
             | Config.CRF => Config.set_crf_encoding c v p
             | Config.VBR => Config.set_vbr_encoding c v p
             end) (resolution_handler self).

Definition set_codec_type (self : VideoEncoder) (ct : Config.VideoCodec) : VideoEncoder :=
  let c := encoding_config self in
  mkEncoder (Config.set_codec_type c ct (Config.hw_accel c)) (resolution_handler self).

(** The public setters a caller of [VideoEncoder] can use, in any order. *)
Inductive EncoderCall :=
  | SetResolutionPreset (p : Resolution.ResolutionPreset)
  | SetEncodingMethod (m : Config.EncodingMethod) (v : float) (p : string)
  | SetCodecType (ct : Config.VideoCodec).

Definition apply_call (self : VideoEncoder) (call : EncoderCall) : VideoEncoder :=
  match call with
  | SetResolutionPreset p => set_resolution_preset self p
  | SetEncodingMethod m v p => set_encoding_method self m v p
  | SetCodecType ct => set_codec_type self ct
  end.

Definition run_calls (self : VideoEncoder) (calls : list EncoderCall) : VideoEncoder :=
  fold_left apply_call calls self.

End EncoderOps.

(* ------------------------------------------------------------------ *)
(** ** [main.py]: the prompts of [VideoEncoderApp] *)

Module App.

Import Config Presets.

(** An [input()] loop reads [inputs] line by line; running out of lines
    is the [EOFError] that ends the program, [None] here. Each prompt
    returns its answer and the lines it left unread. *)

(** [_ask_yes_no]. *)
Fixpoint ask_yes_no (default : option string) (inputs : list string)
    : option (bool * list string) :=
  match inputs with
  | [] => None
  | line :: rest =>
      let answer := PyText.lower (PyText.strip line) in
      if String.eqb answer "" && (match default with Some _ => true | None => false end)
      then Some (match default with Some d => String.eqb d "y" | None => false end, rest)
      else if String.eqb answer "y" || String.eqb answer "yes" then Some (true, rest)
      else if String.eqb answer "n" || String.eqb answer "no" then Some (false, rest)
      else ask_yes_no default rest
  end.

(** An input line [_ask_yes_no] reads as an explicit yes. *)
Definition is_yes (line : string) : bool :=
  let answer := PyText.lower (PyText.strip line) in
  String.eqb answer "y" || String.eqb answer "yes".

(** [get_processing_options]: [(recursive, delete_originals)]. *)
Definition get_processing_options (inputs : list string)
    : option ((bool * bool) * list string) :=
  match ask_yes_no (Some "y") inputs with
  | None => None
  | Some (recursive, r1) =>
      match ask_yes_no (Some "n") r1 with
      | None => None
      | Some (delete_originals, r2) =>
          if delete_originals then
            match ask_yes_no None r2 with
            | None => None
            | Some (confirmed, r3) => Some ((recursive, confirmed), r3)
            end
          else Some ((recursive, false), r2)
      end
  end.

Section Menus.

(** Python's [int(s)] and [float(s)] on a line; [None] is the
    [ValueError] they raise. The menus are stated for any such parser. *)
Variable parse_int : string -> option Z.
Variable parse_float : string -> option float.

(** The inner [while True] of the custom CRF value. *)
Fixpoint custom_crf (inputs : list string)
    : option ((EncodingMethod * float * string) * list string) :=
  match inputs with
  | [] => None
  | line :: rest =>
      match parse_float line with
      | None => custom_crf rest
      | Some x =>
          if PrimFloat.leb (Py.float_of_Z 0) x && PrimFloat.leb x (Py.float_of_Z 51)
          then Some ((CRF, x, "medium"), rest)
          else custom_crf rest
      end
  end.

(** [_configure_crf_encoding]; a preset's [int] value is carried as the
    float it equals. *)
Fixpoint configure_crf (inputs : list string)
    : option ((EncodingMethod * float * string) * list string) :=
  match inputs with
  | [] => None
  | line :: rest =>
      let choice := PyText.strip line in
      let choice := if String.eqb choice "" then "3" else choice in
      match parse_int choice with
      | None => configure_crf rest
      | Some n =>
          let choice_idx := n - 1 in
          if (0 <=? choice_idx) && (choice_idx <? Z.of_nat (length CRF_PRESETS)) then
            let '(_, v) := nth (Z.to_nat choice_idx) CRF_PRESETS ("", 0) in
            Some ((CRF, Py.float_of_Z v, "medium"), rest)
          else if choice_idx =? Z.of_nat (length CRF_PRESETS) then custom_crf rest
          else configure_crf rest
      end
  end.

Fixpoint custom_vbr (inputs : list string)
    : option ((EncodingMethod * float * string) * list string) :=
  match inputs with
  | [] => None
  | line :: rest =>
      match parse_float line with
      | None => custom_vbr rest
      | Some x =>
          if PrimFloat.leb 0.1%float x && PrimFloat.leb x 10.0%float
          then Some ((VBR, x, "medium"), rest)
          else custom_vbr rest
      end
  end.

(** [_configure_vbr_encoding]. *)
Fixpoint configure_vbr (inputs : list string)
    : option ((EncodingMethod * float * string) * list string) :=
  match inputs with
  | [] => None
  | line :: rest =>
      let choice := PyText.strip line in
      let choice := if String.eqb choice "" then "3" else choice in
      match parse_int choice with
      | None => configure_vbr rest
      | Some n =>
          let choice_idx := n - 1 in
          if (0 <=? choice_idx) && (choice_idx <? Z.of_nat (length VBR_PRESETS)) then
            let '(_, v) := nth (Z.to_nat choice_idx) VBR_PRESETS ("", 0%float) in
            Some ((VBR, v, "medium"), rest)
          else if choice_idx =? Z.of_nat (length VBR_PRESETS) then custom_vbr rest
          else configure_vbr rest
      end
  end.

(** [select_encoding_method]. *)
Fixpoint select_encoding_method (inputs : list string)
    : option ((EncodingMethod * float * string) * list string) :=
  match inputs with
  | [] => None
  | line :: rest =>
      let method_choice := PyText.strip line in
      let method_choice := if String.eqb method_choice "" then "1" else method_choice in
      if String.eqb method_choice "1" then configure_crf rest
      else if String.eqb method_choice "2" then configure_vbr rest
      else select_encoding_method rest
  end.

End Menus.

End App.

(* ------------------------------------------------------------------ *)
(** ** [video_encoder.py]: [VideoEncoder.cleanup_failed_files] *)

Module Cleanup.

Import Video Encoder.

(** [VideoFile(file_path).get_output_filename()]: the constructor's probe
    sets fields [get_output_filename] does not read. *)
Definition output_of_path (p : string) : string :=
  get_output_filename (mkVideoFile p 0 None None None None).

(** The first loop: every failure is caught and printed inside it. *)
Fixpoint cleanup_failed (failed_file_paths : list string) (fs : FS.FS) (cleaned : nat)
    : FS.FS * nat :=
  match failed_file_paths with
  | [] => (fs, cleaned)
  | p :: ps =>
      let out := output_of_path p in
      if FS.exists_ fs out then
        match FS.remove fs out with
        | Some fs' => cleanup_failed ps fs' (S cleaned)
        | None => cleanup_failed ps fs cleaned
        end
      else cleanup_failed ps fs cleaned
  end.

(** The orphan loop over [self.video_files]; its [try] encloses the whole
    loop, so the first failing removal ends it (the returned [bool]). *)
Fixpoint cleanup_orphans (video_files : list VideoFile) (fs : FS.FS) (cleaned : nat)
    : FS.FS * nat * bool :=
  match video_files with
  | [] => (fs, cleaned, false)
  | vf :: rest =>
      let out := get_output_filename vf in
      if FS.exists_ fs out then
        match FS.getsize fs out with
        | Some file_size =>
            if file_size <? 1024 then
              match FS.remove fs out with
              | Some fs' => cleanup_orphans rest fs' (S cleaned)
              | None => (fs, cleaned, true)
              end
            else cleanup_orphans rest fs cleaned
        | None => (fs, cleaned, true)
        end
      else cleanup_orphans rest fs cleaned
  end.

(** [cleanup_failed_files]: the file system after it and [cleaned_count]. *)
Definition cleanup_failed_files (failed_file_paths : list string)
    (video_files : list VideoFile) (fs : FS.FS) : FS.FS * nat :=
  let '(fs1, c1) := cleanup_failed failed_file_paths fs 0 in
  let '(fs2, c2, _) := cleanup_orphans video_files fs1 c1 in
  (fs2, c2).

End Cleanup.

(* ------------------------------------------------------------------ *)
(** ** [progress_display.py]: the per-file and session bookkeeping *)

Module Progress.

(** [FileProcessingStats] and [SessionStats], without their size, time
    and timestamp fields. File names are kept as given: the
    [encode('utf-8', errors='replace').decode('utf-8')] round trip leaves
    a [str] without lone surrogates unchanged. *)
Record FileStat := mkFileStat {
  filename : string;
  status : string;
  error_message : option string
}.

Record SessionStats := mkSession {
  total_files : nat;
  completed_files : nat;
  failed_files : nat;
  current_file : option string
}.

Record ProgressDisplay := mkDisplay {
  file_stats : list FileStat;
  session_stats : SessionStats
}.

Definition new_display : ProgressDisplay := mkDisplay [] (mkSession 0 0 0 None).

(** [next((fs for fs in self.file_stats if fs.filename == filename), None)]
    followed by an update of that entry. *)
Fixpoint update_first (name : string) (f : FileStat -> FileStat) (l : list FileStat)
    : list FileStat :=
  match l with
  | [] => []
  | x :: l' => if String.eqb (filename x) name then f x :: l' else x :: update_first name f l'
  end.

Definition initialize_session (d : ProgressDisplay) (total : nat) (file_list : list string)
    : ProgressDisplay :=
  let s := session_stats d in
  mkDisplay (map (fun n => mkFileStat n "pending" None) file_list)
    (mkSession total (completed_files s) (failed_files s) (current_file s)).

Definition start_file_processing (d : ProgressDisplay) (name : string) : ProgressDisplay :=
  let s := session_stats d in
  mkDisplay
    (update_first name (fun x => mkFileStat (filename x) "processing" (error_message x))
       (file_stats d))
    (mkSession (total_files s) (completed_files s) (failed_files s) (Some name)).

Definition complete_file_processing (d : ProgressDisplay) (name : string) (success : bool)
    (err : option string) : ProgressDisplay :=
  let s := session_stats d in
  let safe_error_message := if Config.truthy err then err else None in
  mkDisplay
    (update_first name
       (fun x => mkFileStat (filename x) (if success then "completed" else "failed")
                   safe_error_message)
       (file_stats d))
    (if success
     then mkSession (total_files s) (S (completed_files s)) (failed_files s) (current_file s)
     else mkSession (total_files s) (completed_files s) (S (failed_files s)) (current_file s)).

(** The calls a [ProgressDisplay] receives. *)
Inductive DisplayCall :=
  | Initialize (total : nat) (file_list : list string)
  | Start (name : string)
  | Complete (name : string) (success : bool) (err : option string).

Definition step (d : ProgressDisplay) (c : DisplayCall) : ProgressDisplay :=
  match c with
  | Initialize t l => initialize_session d t l
  | Start n => start_file_processing d n
  | Complete n ok e => complete_file_processing d n ok e
  end.

Definition run (d : ProgressDisplay) (calls : list DisplayCall) : ProgressDisplay :=
  fold_left step calls d.

(** [[fs for fs in self.file_stats if fs.status == "failed"]], the list
    the final summary prints. *)
Definition failed_entries (d : ProgressDisplay) : list FileStat :=
  List.filter (fun x => String.eqb (status x) "failed") (file_stats d).

End Progress.

(* ================================================================== *)
(** * Properties *)

(* ------------------------------------------------------------------ *)
(** ** Resolution policy *)

Module ResolutionProps.

Import Resolution.

(** C4: [needs_resizing] holds exactly when the long edge exceeds the
    target long edge; when it does not hold, the target resolution is the
    source resolution and no scale filter is emitted. *)
Theorem needs_resizing_iff_and_identity (h : ResolutionHandler) (r : VideoResolution) :
  (needs_resizing h r = true <-> Z.max (width r) (height r) > target_longest_side h) /\
  (needs_resizing h r = false ->
   calculate_target_resolution h r = Some r /\ get_ffmpeg_scale_filter h r = Some None).
Proof.
  split.
  - unfold needs_resizing, longest_side. rewrite Z.ltb_lt. lia.
  - intros Hn. unfold get_ffmpeg_scale_filter, calculate_target_resolution.
    rewrite Hn. simpl. rewrite !Z.eqb_refl. auto.
Qed.

Lemma needs_resizing_iff_and_identity_witness :
  needs_resizing (init FHD) (mkRes 1280 720) = false /\
  calculate_target_resolution (init FHD) (mkRes 1280 720) = Some (mkRes 1280 720) /\
  get_ffmpeg_scale_filter (init FHD) (mkRes 1280 720) = Some None.
Proof.
  split; [reflexivity|].
  apply (proj2 (needs_resizing_iff_and_identity (init FHD) (mkRes 1280 720))).
  reflexivity.
Defined.

(** C3 (code defect): for a 2148x537 source and the default FHD preset,
    [calculate_target_resolution] returns 1918x478, whereas the rule
    [floor(width * scale)], [floor(height * scale)] made even gives
    1920x480: the binary64 product [2148 * (1920 / 2148)] lies just below
    1920 and [int()] truncates it to 1919. The long edge then misses the
    target by 2 although 1920 is already even. *)
Theorem calculate_target_resolution_float_truncation :
  calculate_target_resolution (init FHD) (mkRes 2148 537) = Some (mkRes 1918 478) /\
  Ref.exact_target_dims 1920 (mkRes 2148 537) = (1920, 480) /\
  target_longest_side (init FHD) = 1920.
Proof. vm_compute. auto. Qed.

End ResolutionProps.

(* ------------------------------------------------------------------ *)
(** ** Encoding configuration *)

Module ConfigProps.

Import Config.

(** Python's [max]/[min] clamp of [set_vbr_encoding] and
    [set_crf_encoding], by cases on the two comparisons. *)
Lemma clamp_bounds (lo hi x : float) :
  PrimFloat.ltb lo hi = true ->
  let v := Py.fmax lo (Py.fmin hi x) in
  (v = lo \/ PrimFloat.ltb lo v = true) /\
  (v = hi \/ PrimFloat.ltb v hi = true) /\
  (PrimFloat.ltb lo x = true -> PrimFloat.ltb x hi = true -> v = x).
Proof.
  intros Hlh. cbv zeta. unfold Py.fmax, Py.fmin.
  destruct (PrimFloat.ltb x hi) eqn:Exh.
  - destruct (PrimFloat.ltb lo x) eqn:Elx; auto.
    split; [auto|]. split; [right; exact Hlh|]. discriminate.
  - destruct (PrimFloat.ltb lo hi) eqn:Elh; try discriminate.
    split; [auto|]. split; [auto|]. discriminate.
Qed.

(** Lookups in keyword dictionaries. *)
Lemma lookup_dict_set_eq (k : string) (v : pyval) (d : dict) :
  Ref.dict_lookup k (dict_set k v d) = Some v.
Proof.
  induction d as [|[k' v'] d IH]; simpl.
  - rewrite String.eqb_refl. reflexivity.
  - destruct (String.eqb k k') eqn:E; simpl.
    + rewrite String.eqb_refl. reflexivity.
    + rewrite E. exact IH.
Qed.

Lemma lookup_dict_set_ne (k k' : string) (v : pyval) (d : dict) :
  k <> k' -> Ref.dict_lookup k (dict_set k' v d) = Ref.dict_lookup k d.
Proof.
  intros Hne. induction d as [|[k'' v''] d IH]; simpl.
  - destruct (String.eqb k k') eqn:E; [apply String.eqb_eq in E; congruence|reflexivity].
  - destruct (String.eqb k' k'') eqn:E'; simpl.
    + apply String.eqb_eq in E'. subst k''.
      destruct (String.eqb k k') eqn:E; [apply String.eqb_eq in E; congruence|reflexivity].
    + rewrite IH. reflexivity.
Qed.

Lemma lookup_dict_update_notin (k : string) (d e : dict) :
  (forall kv, In kv e -> fst kv <> k) ->
  Ref.dict_lookup k (dict_update d e) = Ref.dict_lookup k d.
Proof.
  unfold dict_update. revert d.
  induction e as [|kv e IH]; intros d He; simpl; [reflexivity|].
  rewrite IH by (intros kv' Hin; apply He; right; exact Hin).
  apply lookup_dict_set_ne. intro Heq. apply (He kv); [left; reflexivity|congruence].
Qed.

(** The setters never touch [additional_params], which starts empty. *)
Lemma reachable_no_additional_params (c : EncodingConfig) :
  Ref.reachable c -> additional_params c = [].
Proof. induction 1; simpl; auto. Qed.

(** [generate_ffmpeg_params] hands its state back unchanged. *)
Lemma generate_ffmpeg_params_state (c : EncodingConfig) (i o : string)
    (b s : option string) :
  snd (generate_ffmpeg_params c i o b s) = c.
Proof.
  unfold generate_ffmpeg_params. cbv zeta.
  lazymatch goal with
  | |- snd (match ?r with _ => _ end) = _ => destruct r
  end; reflexivity.
Qed.

(** The tuning bundles carry no ['crf'] key. *)
Lemma crf_after_bundles (c : EncodingConfig) (vc : string) (X : dict) :
  Ref.dict_lookup "crf"
    (if Py.contains "nvenc" vc then dict_update X (nvenc_optimizations c)
     else if Py.contains "amf" vc then dict_update X (amf_optimizations c)
     else if Py.contains "qsv" vc then dict_update X qsv_optimizations
     else if Py.contains "x265" vc || Py.contains "libx265" vc
          then dict_update X x265_optimizations
     else X) = Ref.dict_lookup "crf" X.
Proof.
  repeat match goal with
  | |- context [if ?t then _ else _] => destruct t
  end; try reflexivity;
  apply lookup_dict_update_notin;
  intros kv Hin; simpl in Hin;
  repeat destruct Hin as [Hin|Hin]; subst; simpl; try discriminate; contradiction.
Qed.

(** In CRF mode, the ['crf'] entry of the parameter bag is [int(value)]. *)
Lemma generate_crf_entry (c : EncodingConfig) (i o : string) (b s : option string)
    (q : Z) :
  method c = CRF -> additional_params c = [] -> Py.int_of_float (value c) = Some q ->
  exists prm, generate_ffmpeg_params c i o b s = (inl prm, c) /\
              Ref.dict_lookup "crf" (video_params prm) = Some (VInt q).
Proof.
  intros Hm Ha Hq. unfold generate_ffmpeg_params. cbv zeta.
  rewrite Hm, Hq. eexists. split; [reflexivity|]. cbn [video_params].
  rewrite Ha. change (dict_update ?X []) with X. rewrite crf_after_bundles.
  destruct s as [f|]; [destruct (truthy (Some f))|];
  repeat (rewrite lookup_dict_set_ne by discriminate);
  apply lookup_dict_set_eq.
Qed.

(** A float strictly between two others is finite, so [int()] accepts it. *)
Lemma int_of_float_between (lo x hi : float) :
  PrimFloat.ltb lo x = true -> PrimFloat.ltb x hi = true ->
  exists q, Py.int_of_float x = Some q.
Proof.
  rewrite !ltb_spec. unfold Py.int_of_float.
  destruct (Prim2SF x) as [sx|sx| |sx mx ex]; intros H1 H2; eauto;
  destruct (Prim2SF lo) as [sl|sl| |sl ml el];
  destruct (Prim2SF hi) as [sh|sh| |sh mh eh];
  try destruct sx; try destruct sl; try destruct sh;
  discriminate.
Qed.

(** C5 (as stated, refuted): with multiplier 0.5 and source bitrate 3,
    [calculate_target_bitrate] returns 1, while [round(3 * 0.5)] is 2. *)
Lemma target_bitrate_not_rounded :
  let c := set_vbr_encoding init_config 0.5%float "medium" in
  value c = 0.5%float /\
  calculate_target_bitrate c "3" = inl 1 /\
  Ref.round_float (Py.mul_int_float 3 (value c)) = Some 2.
Proof. vm_compute. auto. Qed.

(** C5 (amended): [set_vbr_encoding] stores [max(0.1, min(10.0, m))],
    which lies in [0.1, 10.0] and is [m] itself when [m] is strictly
    inside; [calculate_target_bitrate] then returns
    [int(source_bitrate * multiplier)], the binary64 product truncated
    toward zero. *)
Theorem set_vbr_clamps_and_bitrate_truncates (c : EncodingConfig) (m : float)
    (p b : string) (n t : Z) :
  int_of_string b = Some n ->
  Py.int_of_float (Py.mul_int_float n (value (set_vbr_encoding c m p))) = Some t ->
  let v := value (set_vbr_encoding c m p) in
  (v = 0.1%float \/ PrimFloat.ltb 0.1 v = true) /\
  (v = 10.0%float \/ PrimFloat.ltb v 10.0 = true) /\
  (PrimFloat.ltb 0.1 m = true -> PrimFloat.ltb m 10.0 = true -> v = m) /\
  calculate_target_bitrate (set_vbr_encoding c m p) b = inl t.
Proof.
  intros Hb Ht. cbv zeta.
  destruct (clamp_bounds 0.1 10.0 m eq_refl) as (H1 & H2 & H3).
  split; [exact H1|]. split; [exact H2|]. split; [exact H3|].
  unfold calculate_target_bitrate.
  change (method (set_vbr_encoding c m p)) with VBR. rewrite Hb, Ht. reflexivity.
Qed.

Lemma set_vbr_clamps_and_bitrate_truncates_witness :
  int_of_string "3" = Some 3 /\
  Py.int_of_float (Py.mul_int_float 3 (value (set_vbr_encoding init_config 0.5 "medium"))) = Some 1 /\
  calculate_target_bitrate (set_vbr_encoding init_config 0.5 "medium") "3" = inl 1.
Proof.
  split; [reflexivity|]. split; [vm_compute; reflexivity|].
  exact (proj2 (proj2 (proj2
    (set_vbr_clamps_and_bitrate_truncates init_config 0.5 "medium" "3" 3 1
       eq_refl (eq_refl : Py.int_of_float (Py.mul_int_float 3 0.5) = Some 1))))).
Defined.

(** C7: [set_crf_encoding] stores [max(0, min(51, x))], which lies in
    [0, 51] and is [x] itself when [x] is strictly inside (input 1000
    stores 51, input -5 stores 0); building parameters from the stored
    configuration puts [int(stored value)] under ['crf'] with no clamping
    of its own, and leaves the configuration as it was, so a second build
    gives the same bag. *)
Theorem set_crf_clamps_at_configuration_time (c : EncodingConfig) (x : float)
    (p : string) (Hc : Ref.reachable c) :
  let c' := set_crf_encoding c x p in
  let v := value c' in
  (v = Py.float_of_Z 0 \/ PrimFloat.ltb (Py.float_of_Z 0) v = true) /\
  (v = Py.float_of_Z 51 \/ PrimFloat.ltb v (Py.float_of_Z 51) = true) /\
  (PrimFloat.ltb (Py.float_of_Z 0) x = true ->
   PrimFloat.ltb x (Py.float_of_Z 51) = true -> v = x) /\
  value (set_crf_encoding c (Py.float_of_Z 1000) p) = Py.float_of_Z 51 /\
  value (set_crf_encoding c (Py.float_of_Z (-5)) p) = Py.float_of_Z 0 /\
  exists q, Py.int_of_float v = Some q /\
    forall i o b s, exists prm,
      generate_ffmpeg_params c' i o b s = (inl prm, c') /\
      generate_ffmpeg_params (snd (generate_ffmpeg_params c' i o b s)) i o b s
        = (inl prm, c') /\
      Ref.dict_lookup "crf" (video_params prm) = Some (VInt q).
Proof.
  cbv zeta.
  pose proof (clamp_bounds (Py.float_of_Z 0) (Py.float_of_Z 51) x eq_refl) as (H1 & H2 & H3).
  split; [exact H1|]. split; [exact H2|]. split; [exact H3|].
  split; [vm_compute; reflexivity|]. split; [vm_compute; reflexivity|].
  assert (Hq : exists q, Py.int_of_float (value (set_crf_encoding c x p)) = Some q).
  { change (value (set_crf_encoding c x p))
      with (Py.fmax (Py.float_of_Z 0) (Py.fmin (Py.float_of_Z 51) x)).
    destruct H1 as [E1|E1]; [rewrite E1; eexists; vm_compute; reflexivity|].
    destruct H2 as [E2|E2]; [rewrite E2; eexists; vm_compute; reflexivity|].
    exact (int_of_float_between _ _ _ E1 E2). }
  destruct Hq as [q Hq]. exists q. split; [exact Hq|].
  intros i o b s.
  destruct (generate_crf_entry (set_crf_encoding c x p) i o b s q eq_refl
              (reachable_no_additional_params _ (Ref.reach_crf c x p Hc)) Hq)
    as (prm & Hg & Hl).
  exists prm. rewrite Hg. simpl. auto.
Qed.

Lemma set_crf_clamps_at_configuration_time_witness :
  value (set_crf_encoding init_config (Py.float_of_Z 1000) "medium") = Py.float_of_Z 51.
Proof.
  exact (proj1 (proj2 (proj2 (proj2
    (set_crf_clamps_at_configuration_time init_config (Py.float_of_Z 1000) "medium"
       Ref.reach_init))))).
Defined.

(** C9: building the parameter bag twice from the same configuration and
    inputs gives the same result; the build leaves the configuration
    unchanged, so it carries no hidden state from one build to the next. *)
Theorem generate_ffmpeg_params_deterministic (c : EncodingConfig) (i o : string)
    (b s : option string) :
  snd (generate_ffmpeg_params c i o b s) = c /\
  fst (generate_ffmpeg_params (snd (generate_ffmpeg_params c i o b s)) i o b s)
    = fst (generate_ffmpeg_params c i o b s) /\
  snd (generate_ffmpeg_params (snd (generate_ffmpeg_params c i o b s)) i o b s) = c.
Proof.
  rewrite !generate_ffmpeg_params_state. auto.
Qed.

End ConfigProps.

(* ------------------------------------------------------------------ *)
(** ** Codec selection and the hardware recommendation *)

Module CodecProps.

Import Config Hardware.

(** The four recommendations [get_recommended_encoder] can produce. *)
Definition rec_shape (r : Recommendation) : Prop :=
  (rec_hw_accel r = None /\ rec_video_codec r = "libx265") \/
  (rec_hw_accel r = Some "cuda" /\ rec_video_codec r = "hevc_nvenc") \/
  (rec_hw_accel r = Some "auto" /\ rec_video_codec r = "hevc_amf") \/
  (rec_hw_accel r = Some "qsv" /\ rec_video_codec r = "hevc_qsv").

Lemma recommend_loop_shape (gpus : list GPUInfo) :
  forall r, rec_shape r -> rec_shape (recommend_loop gpus r).
Proof.
  induction gpus as [|g gs IH]; intros r Hr; simpl; [exact Hr|].
  destruct (String.eqb (vendor g) "NVIDIA" && supports_nvenc g);
    [unfold rec_shape; simpl; auto|].
  destruct (String.eqb (vendor g) "AMD" && supports_vce g);
    [unfold rec_shape; simpl; auto|].
  destruct (String.eqb (vendor g) "Intel" && supports_qsv g); apply IH; auto.
  unfold rec_shape; simpl; auto 10.
Qed.

(** C6 (as stated, refuted): no setting is made, yet on a machine whose
    detector reports an NVENC-capable NVIDIA GPU the fresh encoder's
    configuration selects the hardware codec [hevc_nvenc] with
    [-hwaccel cuda]. *)
Lemma hardware_codec_without_configuration :
  let c := encoder_init_config [mkGPU "GeForce RTX 3060" "NVIDIA" true false false] in
  hw_accel c = Some "cuda" /\ video_codec c = "hevc_nvenc" /\
  Ref.vendor_of_codec (video_codec c) <> Ref.Software.
Proof. vm_compute. split; [reflexivity|]. split; [reflexivity|]. discriminate. Qed.

(** C6 (amended): [set_codec_type] selects [libx264]/[libx265] when the
    [hw_accel] it is given is unset, and otherwise crosses the codec
    family with the vendor named by the current codec id (NVENC, AMF,
    QSV, or software when none is named). Hardware is not opt-in: the
    [VideoEncoder] constructor installs the detector's recommendation,
    so the starting configuration is software [libx265] only when the
    detector recommends no hardware path, and is the recommended
    [hw_accel] with its hardware codec otherwise. *)
Theorem codec_selection_and_default (c : EncodingConfig) (ct : VideoCodec)
    (hw : option string) (gpus : list GPUInfo) :
  (truthy hw = false ->
   video_codec (set_codec_type c ct hw) = Ref.codec_id ct Ref.Software) /\
  (truthy hw = true ->
   video_codec (set_codec_type c ct hw)
   = Ref.codec_id ct (Ref.vendor_of_codec (video_codec c))) /\
  (truthy (rec_hw_accel (get_recommended_encoder gpus)) = false ->
   encoder_init_config gpus = init_config) /\
  (truthy (rec_hw_accel (get_recommended_encoder gpus)) = true ->
   hw_accel (encoder_init_config gpus) = rec_hw_accel (get_recommended_encoder gpus) /\
   video_codec (encoder_init_config gpus) = rec_video_codec (get_recommended_encoder gpus) /\
   Ref.vendor_of_codec (video_codec (encoder_init_config gpus)) <> Ref.Software).
Proof.
  split; [|split; [|split]].
  - intros H. unfold set_codec_type. simpl. rewrite H. destruct ct; reflexivity.
  - intros H. unfold set_codec_type, Ref.vendor_of_codec. simpl. rewrite H.
    destruct ct;
      destruct (Py.contains "nvenc" (video_codec c)); try reflexivity;
      destruct (Py.contains "amf" (video_codec c)); try reflexivity;
      destruct (Py.contains "qsv" (video_codec c)); reflexivity.
  - intros H. unfold encoder_init_config, apply_hardware_recommendations.
    rewrite H. reflexivity.
  - unfold encoder_init_config, apply_hardware_recommendations.
    assert (Hs : rec_shape (get_recommended_encoder gpus)).
    { apply recommend_loop_shape. unfold rec_shape. simpl. auto. }
    intros H. destruct (get_recommended_encoder gpus) as [rh rv rd].
    unfold rec_shape in Hs. cbn [rec_hw_accel rec_video_codec] in *. rewrite H.
    destruct Hs as [[-> ->]|[[-> ->]|[[-> ->]|[-> ->]]]];
      [discriminate| | |]; vm_compute;
      (split; [reflexivity|]; split; [reflexivity|]; discriminate).
Qed.

Lemma codec_selection_and_default_witness :
  video_codec (set_codec_type (encoder_init_config
                 [mkGPU "Radeon RX 6600" "AMD" false true false]) H264 (Some "auto"))
    = "h264_amf" /\
  hw_accel (encoder_init_config [mkGPU "Radeon RX 6600" "AMD" false true false])
    = Some "auto".
Proof.
  split.
  - exact (proj1 (proj2 (codec_selection_and_default
      (encoder_init_config [mkGPU "Radeon RX 6600" "AMD" false true false])
      H264 (Some "auto") [mkGPU "Radeon RX 6600" "AMD" false true false]))
      eq_refl).
  - exact (proj1 (proj2 (proj2 (proj2 (codec_selection_and_default
      init_config H264 None [mkGPU "Radeon RX 6600" "AMD" false true false])))
      eq_refl)).
Defined.

End CodecProps.

(* ------------------------------------------------------------------ *)
(** ** [encode_single_file] and file discovery *)

Module EncoderProps.

Import Video Encoder.

Lemma try_remove_undeletable (fs : FS.FS) (p : string) :
  FS.undeletable (FS.try_remove fs p) = FS.undeletable fs.
Proof. unfold FS.try_remove, FS.remove. destruct (_ && _); reflexivity. Qed.

Lemma write_undeletable (fs : FS.FS) (p : string) (sz : Z) :
  FS.undeletable (FS.write fs p sz) = FS.undeletable fs.
Proof. reflexivity. Qed.

(** The cleanup of the [except] clause leaves no file at [p] unless the
    operating system refuses to remove it. *)
Lemma cleanup_removes (fs : FS.FS) (p : string) :
  p ∉ FS.undeletable fs ->
  FS.exists_ (if FS.exists_ fs p then FS.try_remove fs p else fs) p = false.
Proof.
  intros Hp. destruct (FS.exists_ fs p) eqn:E; [|exact E].
  unfold FS.try_remove, FS.remove. rewrite E.
  rewrite (bool_decide_eq_false_2 _ Hp). simpl.
  unfold FS.exists_. simpl. rewrite lookup_delete_eq. reflexivity.
Qed.

Lemma encode_body_undeletable (self : VideoEncoder) (vf : VideoFile) (out : string)
    (env : JobEnv) (fs : FS.FS) :
  FS.undeletable (snd (encode_body self vf out env fs)) = FS.undeletable fs.
Proof.
  unfold encode_body.
  destruct (FS.exists_ fs (file_path vf)); [|reflexivity]. simpl.
  destruct (Video.error vf); [reflexivity|].
  destruct (je_resolution env) as [sf|]; [|reflexivity].
  destruct (fst _); [|reflexivity].
  destruct (je_run env) as [code w|w|]; [| destruct w; reflexivity | reflexivity].
  set (fs1 := match w with Some sz => FS.write fs out sz | None => fs end).
  assert (H1 : FS.undeletable fs1 = FS.undeletable fs) by (destruct w; reflexivity).
  destruct (negb (code =? 0)); [exact H1|].
  destruct (FS.getsize fs1 out) as [[|sz|sz]|]; cbn [snd]; try exact H1;
    try (rewrite try_remove_undeletable; exact H1);
    destruct (je_output_has_video env); cbn [snd]; try exact H1;
    rewrite try_remove_undeletable; exact H1.
Qed.

(** Whatever fails in the body, the job's file system ends with no file
    at the output path, unless its removal is refused. *)
Lemma encode_single_file_failure_cleanup (self : VideoEncoder) (vf : VideoFile)
    (out : string) (env : JobEnv) (fs : FS.FS) (r : JobResult) (fs' : FS.FS) :
  out ∉ FS.undeletable fs ->
  encode_single_file self vf (Some out) env fs = (r, fs') ->
  success r = false -> FS.exists_ fs' out = false.
Proof.
  intros Hu Hr Hs. unfold encode_single_file in Hr.
  pose proof (encode_body_undeletable self vf out env fs) as Hund.
  destruct (encode_body self vf out env fs) as [[sz|e] fs2].
  - inversion Hr; subst; discriminate.
  - inversion Hr; subst. apply cleanup_removes. simpl in Hund. rewrite Hund. exact Hu.
Qed.

(** C1 (as stated, refuted): an encoder run that exits 0 and leaves an
    empty output file is reported as an output validation failure, but
    when the operating system refuses to remove that file, the file is
    still on disk after the job (the code only prints a warning). *)
Lemma empty_output_left_when_removal_refused :
  let fs := FS.mkFS (<["in.mp4" := 1000000]> (<["out.mp4" := 0]> ∅)) {["out.mp4"]} in
  let vf := mkVideoFile "in.mp4" 1000000 (Some "5000000") (Some "1920x1080")
              (Some "h264") None in
  let env := mkJobEnv (Some None) (Exited 0 (Some 0)) false in
  let '(r, fs') := encode_single_file (Encoder.init []) vf (Some "out.mp4") env fs in
  success r = false /\ error r = Some (OutputValidationFailed OutputEmpty) /\
  FS.exists_ fs' "out.mp4" = true.
Proof. vm_compute. auto. Qed.

(** C1 (amended): when the encoder is run and exits with code 0 while
    the output file is missing, empty, or has no video stream on
    re-probe, [encode_single_file] returns [success = false] with an
    output validation error, and the output file is removed: it remains
    only if the operating system refuses its removal. *)
Theorem encode_single_file_output_validation (self : VideoEncoder) (vf : VideoFile)
    (out : string) (env : JobEnv) (fs : FS.FS) (sf : option string)
    (prm : Config.FFmpegParams) (w : option Z) :
  FS.exists_ fs (file_path vf) = true ->
  Video.error vf = None ->
  je_resolution env = Some sf ->
  fst (Config.generate_ffmpeg_params (encoding_config self) (file_path vf) out
         (bitrate vf) sf) = inl prm ->
  je_run env = Exited 0 w ->
  (let fs1 := match w with Some sz => FS.write fs out sz | None => fs end in
   FS.getsize fs1 out = None \/ FS.getsize fs1 out = Some 0 \/
   je_output_has_video env = false) ->
  let '(r, fs') := encode_single_file self vf (Some out) env fs in
  success r = false /\
  (exists e, error r = Some e /\ is_output_validation_error e = true) /\
  (out ∉ FS.undeletable fs -> FS.exists_ fs' out = false).
Proof.
  intros Hin Herr Hres Hgen Hrun Hout.
  destruct (encode_single_file self vf (Some out) env fs) as [r fs'] eqn:Hr.
  assert (Hbody : exists e fs2, encode_body self vf out env fs = (inr e, fs2) /\
                                is_output_validation_error e = true).
  { unfold encode_body. rewrite Hin, Herr, Hres, Hgen, Hrun. simpl.
    cbv zeta in Hout.
    set (fs1 := match w with Some sz => FS.write fs out sz | None => fs end) in *.
    destruct (FS.getsize fs1 out) as [[|sz|sz]|] eqn:Eg;
      try (do 2 eexists; split; reflexivity);
      destruct Hout as [Hout|[Hout|Hout]]; try congruence;
      rewrite Hout; do 2 eexists; split; reflexivity. }
  destruct Hbody as (e & fs2 & Hb & He).
  assert (Hsucc : success r = false).
  { unfold encode_single_file in Hr. rewrite Hb in Hr. inversion Hr. reflexivity. }
  split; [exact Hsucc|]. split.
  - exists e. split; [|exact He].
    unfold encode_single_file in Hr. rewrite Hb in Hr. inversion Hr. reflexivity.
  - intros Hu. exact (encode_single_file_failure_cleanup self vf out env fs r fs' Hu Hr Hsucc).
Qed.

Lemma encode_single_file_output_validation_witness :
  let fs := FS.mkFS (<["in.mp4" := 1000000]> ∅) ∅ in
  let vf := mkVideoFile "in.mp4" 1000000 (Some "5000000") (Some "1920x1080")
              (Some "h264") None in
  let env := mkJobEnv (Some None) (Exited 0 (Some 0)) true in
  let '(r, fs') := encode_single_file (Encoder.init []) vf (Some "out.mp4") env fs in
  success r = false /\
  (exists e, error r = Some e /\ is_output_validation_error e = true) /\
  ("out.mp4" ∉ FS.undeletable fs -> FS.exists_ fs' "out.mp4" = false).
Proof.
  cbv zeta.
  refine (encode_single_file_output_validation (Encoder.init [])
            (mkVideoFile "in.mp4" 1000000 (Some "5000000") (Some "1920x1080")
               (Some "h264") None) "out.mp4"
            (mkJobEnv (Some None) (Exited 0 (Some 0)) true)
            (FS.mkFS (<["in.mp4" := 1000000]> ∅) ∅) None
            (Config.mkParams "in.mp4" "out.mp4"
               (Config.dict_update
                  (Config.dict_set "crf" (Config.VInt 23)
                     (Config.dict_set "preset" (Config.VStr "medium")
                        [("vcodec", Config.VStr "libx265")]))
                  Config.x265_optimizations) [])
            (Some 0) _ _ _ _ _ _).
  - vm_compute. reflexivity.
  - reflexivity.
  - reflexivity.
  - vm_compute. reflexivity.
  - reflexivity.
  - right. left. vm_compute. reflexivity.
Defined.

(** C10: a [VideoFile] is valid exactly when loading it raised nothing and
    gave a bitrate; so whatever the encoder's configuration (a
    quality-based one included), [discover_video_files] returns only
    files with a bitrate and drops every candidate whose bitrate could
    not be determined. *)
Theorem discover_requires_bitrate (self : VideoEncoder) (globbed : list Candidate)
    (vfs : list VideoFile) :
  (forall vf, is_valid vf = true <-> Video.error vf = None /\ bitrate vf <> None) /\
  (discover_video_files self true globbed = inl vfs ->
   (forall vf, In vf vfs ->
      Video.error vf = None /\ bitrate vf <> None /\
      exists c, In c globbed /\ vf = load (c_path c) (c_size c) (c_probes c)) /\
   (forall c, In c globbed -> bitrate (load (c_path c) (c_size c) (c_probes c)) = None ->
      ~ In (load (c_path c) (c_size c) (c_probes c)) vfs)).
Proof.
  assert (Hv : forall vf, is_valid vf = true <-> Video.error vf = None /\ bitrate vf <> None).
  { intros vf. unfold is_valid.
    destruct (Video.error vf), (bitrate vf); split; intros H;
      try discriminate; try (destruct H; congruence); auto; easy. }
  split; [exact Hv|].
  intros Hd. simpl in Hd. injection Hd as <-.
  assert (Hin : forall vf, In vf (fold_right
           (fun c acc =>
              if candidate_filter c then
                let vf := load (c_path c) (c_size c) (c_probes c) in
                if is_valid vf then vf :: acc else acc
              else acc) [] globbed) ->
           is_valid vf = true /\
           exists c, In c globbed /\ vf = load (c_path c) (c_size c) (c_probes c)).
  { induction globbed as [|c cs IH]; simpl; [contradiction|].
    intros vf Hvf.
    destruct (candidate_filter c);
      [destruct (is_valid (load (c_path c) (c_size c) (c_probes c))) eqn:Ev|].
    - destruct Hvf as [<-|Hvf]; [split; [exact Ev|]; exists c; auto|].
      destruct (IH vf Hvf) as [H1 (c' & H2 & H3)]. split; [exact H1|]. eauto.
    - destruct (IH vf Hvf) as [H1 (c' & H2 & H3)]. split; [exact H1|]. eauto.
    - destruct (IH vf Hvf) as [H1 (c' & H2 & H3)]. split; [exact H1|]. eauto. }
  split.
  - intros vf Hvf. destruct (Hin vf Hvf) as [H1 H2].
    apply Hv in H1. destruct H1. auto.
  - intros c _ Hb Hc. destruct (Hin _ Hc) as [H1 _]. apply Hv in H1.
    destruct H1 as [_ H1]. contradiction.
Qed.

Lemma discover_requires_bitrate_witness :
  Config.method (encoding_config (Encoder.init [])) = Config.CRF /\
  discover_video_files (Encoder.init []) true
    [mkCandidate "videos/clip.mp4" true (Some 1000)
       [Some (mkProbe [mkStream "video" None (Some "h264") (Some 1920) (Some 1080)] None)]]
  = inl [] /\
  ~ In (load "videos/clip.mp4" (Some 1000)
          [Some (mkProbe [mkStream "video" None (Some "h264") (Some 1920) (Some 1080)] None)])
       [].
Proof.
  split; [vm_compute; reflexivity|]. split; [vm_compute; reflexivity|].
  refine (proj2 (proj2 (discover_requires_bitrate (Encoder.init [])
     [mkCandidate "videos/clip.mp4" true (Some 1000)
        [Some (mkProbe [mkStream "video" None (Some "h264") (Some 1920) (Some 1080)] None)]]
     []) _) (mkCandidate "videos/clip.mp4" true (Some 1000)
        [Some (mkProbe [mkStream "video" None (Some "h264") (Some 1920) (Some 1080)] None)])
     _ _).
  - vm_compute. reflexivity.
  - left. reflexivity.
  - vm_compute. reflexivity.
Defined.

End EncoderProps.

(* ------------------------------------------------------------------ *)
(** ** [encode_batch] *)

Module BatchProps.

Import Video Encoder Batch.

Definition paths (jobs : list (VideoFile * JobEnv)) : list string :=
  map (fun j => file_path (fst j)) jobs.

Lemma record_props (del : bool) (vf : VideoFile) (r : JobResult) (st : Stats)
    (fs : FS.FS) (st1 : Stats) (fs1 : FS.FS) :
  record del vf r st fs = (st1, fs1) ->
  total_files st1 = total_files st /\ cancelled st1 = cancelled st /\
  (processed_files st1 + failed_files st1 = S (processed_files st + failed_files st))%nat /\
  incl (failed_file_paths st) (failed_file_paths st1) /\
  (success r = false -> In (file_path vf) (failed_file_paths st1)).
Proof.
  unfold record. destruct (success r); intros H; inversion H; subst; simpl.
  - repeat split; try lia; auto using incl_refl; discriminate.
  - repeat split; try lia;
      [apply incl_appl, incl_refl
      |intros _; apply in_or_app; right; left; reflexivity].
Qed.

Lemma batch_loop_props (self : VideoEncoder) (del : bool) (sched : CancelSchedule)
    (jobs : list (VideoFile * JobEnv)) :
  forall i st fs st' fs' att tr,
  batch_loop self del sched i jobs st fs = (st', fs', att, tr) ->
  total_files st' = total_files st /\ cancelled st' = cancelled st /\
  (processed_files st' + failed_files st' = processed_files st + failed_files st + length att)%nat /\
  att = paths (firstn (length att) jobs) /\
  (length att <= length jobs)%nat /\
  Forall (fun s => total_files s = total_files st /\ cancelled s = cancelled st /\
            (processed_files s + failed_files s
             <= processed_files st + failed_files st + length jobs)%nat) tr /\
  incl (failed_file_paths st) (failed_file_paths st').
Proof.
  induction jobs as [|[vf env] rest IH]; intros i st fs st' fs' att tr H; simpl in H.
  - inversion H; subst. simpl. repeat split; try lia; auto using incl_refl.
  - destruct (flag_at sched i).
    + inversion H; subst. simpl. repeat split; try lia; auto using incl_refl.
    + destruct (encode_single_file self vf None env fs) as [r fs1].
      destruct (record del vf r st fs1) as [st1 fs2] eqn:Er.
      destruct (batch_loop self del sched (S i) rest st1 fs2) as [[[st'' fs''] att''] tr''] eqn:El.
      inversion H; subst.
      destruct (record_props _ _ _ _ _ _ _ Er) as (R1 & R2 & R3 & R4 & _).
      destruct (IH _ _ _ _ _ _ _ El) as (L1 & L2 & L3 & L4 & L5 & L6 & L7).
      unfold paths in *. simpl. repeat split; try congruence; try lia;
      lazymatch goal with
      | |- Forall _ _ =>
          constructor; [repeat split; try congruence; lia|];
          eapply Forall_impl; [exact L6|]; simpl; intros s (S1 & S2 & S3);
          repeat split; try congruence; lia
      | |- incl _ _ => eapply incl_tran; eassumption
      end.
Qed.

Lemma batch_loop_cancel_len (self : VideoEncoder) (del : bool) (j : nat)
    (jobs : list (VideoFile * JobEnv)) :
  forall i st fs st' fs' att tr,
  batch_loop self del (CancelBefore j) i jobs st fs = (st', fs', att, tr) ->
  (i <= j)%nat -> length att = Nat.min (j - i) (length jobs).
Proof.
  induction jobs as [|[vf env] rest IH]; intros i st fs st' fs' att tr H Hij; simpl in H.
  - inversion H; subst. simpl. lia.
  - simpl in H. destruct (Nat.leb j i) eqn:Eji.
    + inversion H; subst. apply Nat.leb_le in Eji. simpl. lia.
    + apply Nat.leb_gt in Eji.
      destruct (encode_single_file self vf None env fs) as [r fs1].
      destruct (record del vf r st fs1) as [st1 fs2].
      destruct (batch_loop self del (CancelBefore j) (S i) rest st1 fs2)
        as [[[st'' fs''] att''] tr''] eqn:El.
      inversion H; subst. simpl.
      rewrite (IH _ _ _ _ _ _ _ El) by lia. lia.
Qed.

Lemma batch_loop_full_len (self : VideoEncoder) (del : bool) (sched : CancelSchedule)
    (jobs : list (VideoFile * JobEnv)) :
  forall i st fs st' fs' att tr,
  batch_loop self del sched i jobs st fs = (st', fs', att, tr) ->
  (forall i', (i <= i' < i + length jobs)%nat -> flag_at sched i' = false) ->
  length att = length jobs.
Proof.
  induction jobs as [|[vf env] rest IH]; intros i st fs st' fs' att tr H Hf; simpl in H.
  - inversion H; subst. reflexivity.
  - rewrite (Hf i) in H by (simpl; lia).
    destruct (encode_single_file self vf None env fs) as [r fs1].
    destruct (record del vf r st fs1) as [st1 fs2].
    destruct (batch_loop self del sched (S i) rest st1 fs2)
      as [[[st'' fs''] att''] tr''] eqn:El.
    inversion H; subst. simpl. f_equal.
    apply (IH _ _ _ _ _ _ _ El). intros i' Hi'. apply Hf. simpl. lia.
Qed.

Lemma flag_at_mono (sched : CancelSchedule) (i i' : nat) :
  (i <= i')%nat -> flag_at sched i = true -> flag_at sched i' = true.
Proof.
  destruct sched as [|j]; simpl; [discriminate|].
  intros Hi H. apply Nat.leb_le in H. apply Nat.leb_le. lia.
Qed.

Lemma firstn_paths_len (jobs : list (VideoFile * JobEnv)) (att : list string) :
  att = paths (firstn (length att) jobs) -> length att = length jobs -> att = paths jobs.
Proof. intros H1 H2. rewrite H1, H2, firstn_all. reflexivity. Qed.

Lemma encode_batch_eq (self : VideoEncoder) (jobs : list (VideoFile * JobEnv))
    (del : bool) (sched : CancelSchedule) (fs : FS.FS) :
  jobs <> [] ->
  encode_batch self jobs del sched fs =
  let st0 := mkStats (length jobs) 0 0 [] false in
  let '(st, fs', att, tr) := batch_loop self del sched 1 jobs st0 fs in
  inl (if flag_at sched (S (length jobs))
       then mkStats (total_files st) (processed_files st) (failed_files st)
              (failed_file_paths st) true
       else st, fs', att, st0 :: tr).
Proof.
  destruct jobs as [|j0 js]; [congruence|]. intros _. unfold encode_batch. cbv zeta.
  destruct (batch_loop self del sched 1 (j0 :: js) _ fs) as [[[st fs'] att] tr].
  reflexivity.
Qed.

(** With no source bitrate, a VBR configuration makes
    [generate_ffmpeg_params] raise, whatever the other arguments. *)
Lemma generate_vbr_no_bitrate (c : Config.EncodingConfig) (i o : string)
    (s : option string) :
  Config.method c = Config.VBR ->
  Config.generate_ffmpeg_params c i o None s
  = (inr (Config.ValueError "Original bitrate required for VBR encoding"), c).
Proof. intros Hm. unfold Config.generate_ffmpeg_params. cbv zeta. rewrite Hm. reflexivity. Qed.

(** Such a job always fails: every exit of [encode_body] before the
    parameters are built is an error too. *)
Lemma encode_single_file_vbr_no_bitrate (self : VideoEncoder) (vf : VideoFile)
    (o : option string) (env : JobEnv) (fs : FS.FS) :
  Config.method (encoding_config self) = Config.VBR -> bitrate vf = None ->
  exists e fs', encode_single_file self vf o env fs
    = (mkResult false (file_path vf)
         (match o with Some p => p | None => get_output_filename vf end) 0 (Some e), fs') /\
    (FS.exists_ fs (file_path vf) = true -> Video.error vf = None ->
     je_resolution env <> None ->
     e = ParamsError (Config.ValueError "Original bitrate required for VBR encoding")).
Proof.
  intros Hm Hb. unfold encode_single_file, encode_body.
  destruct (FS.exists_ fs (file_path vf)) eqn:Ex; simpl.
  - destruct (Video.error vf) as [err|] eqn:Ee; simpl.
    + do 2 eexists. split; [reflexivity|]. discriminate.
    + destruct (je_resolution env) as [sf|] eqn:Er.
      * rewrite Hb, generate_vbr_no_bitrate by exact Hm. simpl.
        do 2 eexists. split; [reflexivity|]. reflexivity.
      * do 2 eexists. split; [reflexivity|]. intros _ _ H. congruence.
  - do 2 eexists. split; [reflexivity|]. discriminate.
Qed.

(** A job that fails in the loop is listed among the failed paths. *)
Lemma batch_loop_records_failure (self : VideoEncoder) (del : bool)
    (vf : VideoFile) (env : JobEnv) (post : list (VideoFile * JobEnv)) :
  Config.method (encoding_config self) = Config.VBR -> bitrate vf = None ->
  forall pre i st fs st' fs' att tr,
  batch_loop self del NoCancel i (pre ++ (vf, env) :: post) st fs = (st', fs', att, tr) ->
  In (file_path vf) (failed_file_paths st').
Proof.
  intros Hm Hb pre. induction pre as [|[vf0 env0] pre IH]; intros i st fs st' fs' att tr H;
    simpl in H.
  - destruct (encode_single_file_vbr_no_bitrate self vf None env fs Hm Hb)
      as (e & fs1 & Ees & _).
    rewrite Ees in H.
    destruct (record del vf _ st fs1) as [st1 fs2] eqn:Er.
    destruct (batch_loop self del NoCancel (S i) post st1 fs2)
      as [[[st'' fs''] att''] tr''] eqn:El.
    inversion H; subst.
    destruct (record_props _ _ _ _ _ _ _ Er) as (_ & _ & _ & _ & R5).
    destruct (batch_loop_props _ _ _ _ _ _ _ _ _ _ _ El) as (_ & _ & _ & _ & _ & _ & L7).
    apply L7, R5. reflexivity.
  - destruct (encode_single_file self vf0 None env0 fs) as [r fs1].
    destruct (record del vf0 r st fs1) as [st1 fs2].
    destruct (batch_loop self del NoCancel (S i) (pre ++ (vf, env) :: post) st1 fs2)
      as [[[st'' fs''] att''] tr''] eqn:El.
    inversion H; subst. exact (IH _ _ _ _ _ _ _ El).
Qed.

(** C2. For a non-empty batch of [n] jobs: when the cancel event is set
    after job [k] completes and before job [k + 1] starts ([k <= n]),
    [encode_batch] attempts exactly the first [k] jobs, and its stats have
    [processed_files + failed_files = k] and [cancelled = true]. For any
    cancel schedule, every stats value the batch goes through (the reset
    one, the one after each job, and the returned one) has
    [total_files = n] and [processed_files + failed_files <= n], and the
    returned one has [processed_files + failed_files = n] unless it is
    marked cancelled. *)
Theorem encode_batch_cancellation_accounting (self : VideoEncoder)
    (jobs : list (VideoFile * JobEnv)) (del : bool) (fs : FS.FS)
    (Hne : jobs <> []) :
  (forall k, (k <= length jobs)%nat ->
   exists st fs' tr,
     encode_batch self jobs del (CancelBefore (S k)) fs
       = inl (st, fs', paths (firstn k jobs), tr) /\
     (processed_files st + failed_files st = k)%nat /\ cancelled st = true) /\
  (forall sched, exists st fs' att tr,
     encode_batch self jobs del sched fs = inl (st, fs', att, tr) /\
     Forall (fun s => total_files s = length jobs /\
                      (processed_files s + failed_files s <= total_files s)%nat)
            (tr ++ [st]) /\
     (cancelled st = false -> (processed_files st + failed_files st = total_files st)%nat)).
Proof.
  split.
  - intros k Hk. rewrite (encode_batch_eq _ _ _ _ _ Hne). cbv zeta.
    destruct (batch_loop self del (CancelBefore (S k)) 1 jobs
                (mkStats (length jobs) 0 0 [] false) fs)
      as [[[st fs'] att] tr] eqn:E.
    pose proof (batch_loop_cancel_len _ _ _ _ _ _ _ _ _ _ _ E) as Hl.
    destruct (batch_loop_props _ _ _ _ _ _ _ _ _ _ _ E)
      as (P1 & P2 & P3 & P4 & P5 & P6 & P7).
    simpl in P3.
    assert (Hlen : length att = k) by (rewrite Hl by lia; lia).
    assert (Hatt : att = paths (firstn k jobs)) by (rewrite <- Hlen; exact P4).
    cbn [flag_at]. replace (S k <=? S (length jobs))%nat with true
      by (symmetry; apply Nat.leb_le; lia).
    do 3 eexists. split; [rewrite Hatt; reflexivity|]. simpl. split; [lia|reflexivity].
  - intros sched. rewrite (encode_batch_eq _ _ _ _ _ Hne). cbv zeta.
    destruct (batch_loop self del sched 1 jobs
                (mkStats (length jobs) 0 0 [] false) fs)
      as [[[st fs'] att] tr] eqn:E.
    destruct (batch_loop_props _ _ _ _ _ _ _ _ _ _ _ E)
      as (P1 & P2 & P3 & P4 & P5 & P6 & P7).
    simpl in P1, P2, P3, P6.
    do 4 eexists. split; [reflexivity|]. split.
    + apply Forall_app. split.
      * constructor; [simpl; split; [reflexivity|lia]|].
        eapply Forall_impl; [exact P6|]. simpl. intros s (S1 & _ & S3). split; lia.
      * constructor; [|constructor].
        destruct (flag_at sched (S (length jobs))); simpl; split; lia.
    + destruct (flag_at sched (S (length jobs))) eqn:Ef; simpl; [discriminate|].
      intros _. rewrite P3, P1.
      rewrite (batch_loop_full_len _ _ _ _ _ _ _ _ _ _ _ E); [lia|].
      intros i' Hi'. destruct (flag_at sched i') eqn:Ei; [|reflexivity].
      rewrite (flag_at_mono sched i' (S (length jobs))) in Ef; [discriminate|lia|exact Ei].
Qed.

Lemma encode_batch_cancellation_accounting_witness :
  [(mkVideoFile "a.mp4" 10 (Some "1000") (Some "640x360") (Some "h264") None,
    mkJobEnv (Some None) (Exited 0 (Some 5)) true)] <> [] /\
  ((forall k, (k <= 1)%nat ->
    exists st fs' tr,
      encode_batch (init []) [(mkVideoFile "a.mp4" 10 (Some "1000")
                                 (Some "640x360") (Some "h264") None,
                               mkJobEnv (Some None) (Exited 0 (Some 5)) true)]
        false (CancelBefore (S k)) (FS.mkFS ∅ ∅)
        = inl (st, fs', paths (firstn k [(mkVideoFile "a.mp4" 10 (Some "1000")
                                 (Some "640x360") (Some "h264") None,
                               mkJobEnv (Some None) (Exited 0 (Some 5)) true)]), tr) /\
      (processed_files st + failed_files st = k)%nat /\ cancelled st = true) /\
   (forall sched, exists st fs' att tr,
      encode_batch (init []) [(mkVideoFile "a.mp4" 10 (Some "1000")
                                 (Some "640x360") (Some "h264") None,
                               mkJobEnv (Some None) (Exited 0 (Some 5)) true)]
        false sched (FS.mkFS ∅ ∅) = inl (st, fs', att, tr) /\
      Forall (fun s => total_files s = 1%nat /\
                       (processed_files s + failed_files s <= total_files s)%nat)
             (tr ++ [st]) /\
      (cancelled st = false -> (processed_files st + failed_files st = total_files st)%nat))).
Proof.
  split; [discriminate|].
  apply (encode_batch_cancellation_accounting (init [])
           [(mkVideoFile "a.mp4" 10 (Some "1000") (Some "640x360") (Some "h264") None,
             mkJobEnv (Some None) (Exited 0 (Some 5)) true)] false (FS.mkFS ∅ ∅)).
  discriminate.
Defined.

(** C8. In VBR mode, with no source bitrate, [generate_ffmpeg_params]
    raises [ValueError("Original bitrate required for VBR encoding")]
    (the spec's configuration error) for every output, scale filter and
    configuration, and builds no parameters with a default bitrate. In
    [encode_single_file] that exception becomes the job's error (an
    existing input, a probe without error and a resolution answer being
    what it takes to reach the call), with [success = false]. In a batch
    without cancellation, wherever the job sits, the batch still returns:
    every job is attempted, the job's path is among the failed paths,
    and [processed_files + failed_files = total_files]. *)
Theorem vbr_missing_bitrate_is_job_failure (self : VideoEncoder) (vf : VideoFile)
    (Hm : Config.method (encoding_config self) = Config.VBR)
    (Hb : bitrate vf = None) :
  (forall o s,
     Config.generate_ffmpeg_params (encoding_config self) (file_path vf) o (bitrate vf) s
     = (inr (Config.ValueError "Original bitrate required for VBR encoding"),
        encoding_config self)) /\
  (forall out env fs,
     FS.exists_ fs (file_path vf) = true -> Video.error vf = None ->
     je_resolution env <> None ->
     exists fs', encode_single_file self vf (Some out) env fs
       = (mkResult false (file_path vf) out 0
            (Some (ParamsError (Config.ValueError "Original bitrate required for VBR encoding"))),
          fs')) /\
  (forall pre post env del fs, exists st fs' tr,
     encode_batch self (pre ++ (vf, env) :: post) del NoCancel fs
       = inl (st, fs', paths (pre ++ (vf, env) :: post), tr) /\
     In (file_path vf) (failed_file_paths st) /\
     (processed_files st + failed_files st = total_files st)%nat /\
     cancelled st = false).
Proof.
  split; [|split].
  - intros o s. rewrite Hb. apply generate_vbr_no_bitrate. exact Hm.
  - intros out env fs Hx He Hr.
    destruct (encode_single_file_vbr_no_bitrate self vf (Some out) env fs Hm Hb)
      as (e & fs' & Ees & Hee).
    exists fs'. rewrite Ees, (Hee Hx He Hr). reflexivity.
  - intros pre post env del fs.
    assert (Hne : pre ++ (vf, env) :: post <> []) by (destruct pre; discriminate).
    rewrite (encode_batch_eq _ _ _ _ _ Hne). cbv zeta.
    destruct (batch_loop self del NoCancel 1 (pre ++ (vf, env) :: post)
                (mkStats (length (pre ++ (vf, env) :: post)) 0 0 [] false) fs)
      as [[[st fs'] att] tr] eqn:E.
    destruct (batch_loop_props _ _ _ _ _ _ _ _ _ _ _ E)
      as (P1 & P2 & P3 & P4 & P5 & P6 & P7).
    simpl in P1, P2, P3.
    assert (Hl : length att = length (pre ++ (vf, env) :: post))
      by (apply (batch_loop_full_len _ _ _ _ _ _ _ _ _ _ _ E); reflexivity).
    cbn [flag_at]. do 3 eexists.
    split; [rewrite (firstn_paths_len _ _ P4 Hl); reflexivity|].
    split; [exact (batch_loop_records_failure _ _ _ _ _ Hm Hb _ _ _ _ _ _ _ _ E)|].
    split; [lia|exact P2].
Qed.

Lemma vbr_missing_bitrate_is_job_failure_witness :
  let self := {| encoding_config := Config.set_vbr_encoding (encoding_config (init [])) 1.0 "medium";
                 resolution_handler := resolution_handler (init []) |} in
  let vf := mkVideoFile "a.mp4" 10 None (Some "640x360") (Some "h264") None in
  Config.method (encoding_config self) = Config.VBR /\ bitrate vf = None /\
  ((forall o s,
      Config.generate_ffmpeg_params (encoding_config self) (file_path vf) o (bitrate vf) s
      = (inr (Config.ValueError "Original bitrate required for VBR encoding"),
         encoding_config self)) /\
   (forall out env fs,
      FS.exists_ fs (file_path vf) = true -> Video.error vf = None ->
      je_resolution env <> None ->
      exists fs', encode_single_file self vf (Some out) env fs
        = (mkResult false (file_path vf) out 0
             (Some (ParamsError (Config.ValueError "Original bitrate required for VBR encoding"))),
           fs')) /\
   (forall pre post env del fs, exists st fs' tr,
      encode_batch self (pre ++ (vf, env) :: post) del NoCancel fs
        = inl (st, fs', paths (pre ++ (vf, env) :: post), tr) /\
      In (file_path vf) (failed_file_paths st) /\
      (processed_files st + failed_files st = total_files st)%nat /\
      cancelled st = false)).
Proof.
  intros self vf. split; [reflexivity|]. split; [reflexivity|].
  apply (vbr_missing_bitrate_is_job_failure self vf); reflexivity.
Defined.

End BatchProps.

(* ------------------------------------------------------------------ *)
(** ** Hardware detection and recommendation *)

Module DetectProps.

Import Hardware Detect.

Lemma recommend_loop_skip (gs : list GPUInfo) (r : Recommendation) :
  Forall (fun h => stops_search h = false /\ qsv_capable h = false) gs ->
  recommend_loop gs r = r.
Proof.
  induction 1 as [|g gs [Hs Hq] _ IH]; simpl; [reflexivity|].
  unfold stops_search, qsv_capable in *.
  apply orb_false_iff in Hs as [-> ->]. rewrite Hq. exact IH.
Qed.

Lemma recommend_loop_pass (g : GPUInfo) (gs : list GPUInfo) (r : Recommendation) :
  stops_search g = false ->
  recommend_loop (g :: gs) r
  = recommend_loop gs (if qsv_capable g
                       then mkRec (Some "qsv") "hevc_qsv" ("Intel QuickSync on " ++ gpu_name g)
                       else r).
Proof.
  unfold stops_search, qsv_capable. intros Hs. simpl.
  apply orb_false_iff in Hs as [-> ->].
  destruct (String.eqb (vendor g) "Intel" && supports_qsv g); reflexivity.
Qed.

(** Every recommendation is the starting one or comes from a listed GPU
    with the matching vendor and capability flag. *)
Lemma recommend_loop_source (gs : list GPUInfo) :
  forall r, recommend_loop gs r = r \/
  exists g, In g gs /\
    ((vendor g = "NVIDIA" /\ supports_nvenc g = true /\
      recommend_loop gs r = mkRec (Some "cuda") "hevc_nvenc" ("NVIDIA NVENC on " ++ gpu_name g)) \/
     (vendor g = "AMD" /\ supports_vce g = true /\
      recommend_loop gs r = mkRec (Some "auto") "hevc_amf" ("AMD VCE on " ++ gpu_name g)) \/
     (vendor g = "Intel" /\ supports_qsv g = true /\
      recommend_loop gs r = mkRec (Some "qsv") "hevc_qsv" ("Intel QuickSync on " ++ gpu_name g))).
Proof.
  induction gs as [|g gs IH]; intros r; simpl; [left; reflexivity|].
  destruct (String.eqb (vendor g) "NVIDIA" && supports_nvenc g) eqn:En.
  { right. apply andb_true_iff in En as [En1 En2]. apply String.eqb_eq in En1.
    exists g. split; [left; reflexivity|]. left. auto. }
  destruct (String.eqb (vendor g) "AMD" && supports_vce g) eqn:Ea.
  { right. apply andb_true_iff in Ea as [Ea1 Ea2]. apply String.eqb_eq in Ea1.
    exists g. split; [left; reflexivity|]. right; left. auto. }
  destruct (String.eqb (vendor g) "Intel" && supports_qsv g) eqn:Ei.
  - apply andb_true_iff in Ei as [Ei1 Ei2]. apply String.eqb_eq in Ei1.
    destruct (IH (mkRec (Some "qsv") "hevc_qsv" ("Intel QuickSync on " ++ gpu_name g)))
      as [Hr|(g' & Hin & Hg)].
    + right. exists g. split; [left; reflexivity|]. right; right. rewrite Hr. auto.
    + right. exists g'. split; [right; exact Hin|]. exact Hg.
  - destruct (IH r) as [Hr|(g' & Hin & Hg)]; [left; exact Hr|].
    right. exists g'. split; [right; exact Hin|]. exact Hg.
Qed.

(** The capability flags the [GPUtil] branch sets match the vendor it
    assigns. *)
Lemma gputil_gpu_flags (name : string) :
  let g := gputil_gpu name in
  (supports_nvenc g = true -> vendor g = "NVIDIA") /\
  (supports_vce g = true -> vendor g = "AMD") /\
  (supports_qsv g = true -> vendor g = "Intel").
Proof.
  unfold gputil_gpu, determine_vendor. cbv zeta.
  destruct (Py.contains "nvidia" (PyText.lower name) || Py.contains "geforce" (PyText.lower name)
            || Py.contains "quadro" (PyText.lower name)); simpl;
    [repeat split; discriminate + reflexivity|].
  destruct (Py.contains "amd" (PyText.lower name) || Py.contains "radeon" (PyText.lower name));
    simpl; [repeat split; discriminate + reflexivity|].
  destruct (Py.contains "intel" (PyText.lower name)); simpl; repeat split; discriminate.
Qed.

Lemma check_ffmpeg_encoders_flags (e : option string) (gs : list GPUInfo) :
  Forall (fun g => (supports_nvenc g = true -> vendor g = "NVIDIA") /\
                   (supports_vce g = true -> vendor g = "AMD") /\
                   (supports_qsv g = true -> vendor g = "Intel")) gs ->
  Forall (fun g => (supports_nvenc g = true -> vendor g = "NVIDIA") /\
                   (supports_vce g = true -> vendor g = "AMD") /\
                   (supports_qsv g = true -> vendor g = "Intel"))
         (check_ffmpeg_encoders e gs).
Proof.
  destruct e as [e|]; [|exact id]. simpl. intros H.
  apply Forall_map. eapply Forall_impl; [exact H|]. intros g (H1 & H2 & H3).
  destruct (String.eqb (vendor g) "NVIDIA") eqn:En;
    [apply String.eqb_eq in En; simpl; repeat split; auto|].
  destruct (String.eqb (vendor g) "AMD") eqn:Ea;
    [apply String.eqb_eq in Ea; simpl; repeat split; auto|].
  destruct (String.eqb (vendor g) "Intel") eqn:Ei;
    [apply String.eqb_eq in Ei; simpl; repeat split; auto|].
  auto.
Qed.

Lemma check_ffmpeg_encoders_vendor (e : string) (gs : list GPUInfo) (g : GPUInfo) :
  In g (check_ffmpeg_encoders (Some e) gs) ->
  exists g0, In g0 gs /\ vendor g = vendor g0 /\ gpu_name g = gpu_name g0 /\
  (vendor g = "NVIDIA" -> supports_nvenc g = (Py.contains "h264_nvenc" e || Py.contains "hevc_nvenc" e)) /\
  (vendor g = "AMD" -> supports_vce g = (Py.contains "h264_amf" e || Py.contains "hevc_amf" e)) /\
  (vendor g = "Intel" -> supports_qsv g = (Py.contains "h264_qsv" e || Py.contains "hevc_qsv" e)).
Proof.
  simpl. intros Hin. apply in_map_iff in Hin as (g0 & <- & Hin).
  exists g0. split; [exact Hin|].
  destruct (String.eqb (vendor g0) "NVIDIA") eqn:En;
    [apply String.eqb_eq in En; simpl; rewrite En; repeat split; auto; discriminate|].
  destruct (String.eqb (vendor g0) "AMD") eqn:Ea;
    [apply String.eqb_eq in Ea; simpl; rewrite Ea; repeat split; auto; discriminate|].
  destruct (String.eqb (vendor g0) "Intel") eqn:Ei;
    [apply String.eqb_eq in Ei; simpl; rewrite Ei; repeat split; auto; discriminate|].
  repeat split; auto; intros Hv; rewrite Hv in *; discriminate.
Qed.

(** X1. [get_recommended_encoder] follows list order, not vendor rank: the
    first NVENC-capable NVIDIA or VCE-capable AMD GPU of the list decides
    (so an AMD GPU listed before an NVIDIA one wins); when there is none,
    the last QuickSync-capable Intel GPU decides (the Intel branch does
    not [break]); otherwise software encoding is recommended. *)
Theorem get_recommended_encoder_list_order (gpus : list GPUInfo) :
  (forall pre g post, gpus = pre ++ g :: post ->
   Forall (fun h => stops_search h = false) pre -> stops_search g = true ->
   get_recommended_encoder gpus =
   if String.eqb (vendor g) "NVIDIA" && supports_nvenc g
   then mkRec (Some "cuda") "hevc_nvenc" ("NVIDIA NVENC on " ++ gpu_name g)
   else mkRec (Some "auto") "hevc_amf" ("AMD VCE on " ++ gpu_name g)) /\
  (Forall (fun h => stops_search h = false) gpus ->
   forall pre g post, gpus = pre ++ g :: post -> qsv_capable g = true ->
   Forall (fun h => qsv_capable h = false) post ->
   get_recommended_encoder gpus
   = mkRec (Some "qsv") "hevc_qsv" ("Intel QuickSync on " ++ gpu_name g)) /\
  (Forall (fun h => stops_search h = false /\ qsv_capable h = false) gpus ->
   get_recommended_encoder gpus = default_recommendation).
Proof.
  unfold get_recommended_encoder. split; [|split].
  - intros pre g post -> Hpre Hg. generalize default_recommendation.
    induction Hpre as [|h pre Hh _ IH]; intros r; simpl app.
    + simpl. unfold stops_search in Hg.
      destruct (String.eqb (vendor g) "NVIDIA" && supports_nvenc g); [reflexivity|].
      simpl in Hg. rewrite Hg. reflexivity.
    + rewrite recommend_loop_pass by exact Hh. apply IH.
  - intros Hall pre g post -> Hg Hpost. generalize default_recommendation.
    apply Forall_app in Hall as [Hpre Hgpost]. inversion Hgpost as [|? ? Hgs Hposts]; subst.
    induction Hpre as [|h pre Hh _ IH]; intros r; simpl app.
    + rewrite recommend_loop_pass by exact Hgs. rewrite Hg.
      apply recommend_loop_skip.
      apply Forall_forall. intros x Hx. split.
      * exact (proj1 (Forall_forall _ _) Hposts x Hx).
      * exact (proj1 (Forall_forall _ _) Hpost x Hx).
    + rewrite recommend_loop_pass by exact Hh. apply IH.
  - apply recommend_loop_skip.
Qed.

Lemma get_recommended_encoder_list_order_witness :
  get_recommended_encoder [mkGPU "Radeon RX 580" "AMD" false true false;
                           mkGPU "GeForce RTX 3060" "NVIDIA" true false false]
  = mkRec (Some "auto") "hevc_amf" ("AMD VCE on " ++ "Radeon RX 580").
Proof.
  refine (proj1 (get_recommended_encoder_list_order
                   [mkGPU "Radeon RX 580" "AMD" false true false;
                    mkGPU "GeForce RTX 3060" "NVIDIA" true false false])
            [] (mkGPU "Radeon RX 580" "AMD" false true false)
            [mkGPU "GeForce RTX 3060" "NVIDIA" true false false] _ _ _);
    [reflexivity|constructor|reflexivity].
Defined.

(** X2. When [GPUtil] reports the GPUs and [ffmpeg -encoders] answers with
    [out], every capability flag set on a detected GPU belongs to the
    vendor [_determine_vendor] gave it, and a hardware path is
    recommended only if [out] lists an H.264 or HEVC encoder of that
    vendor and one of the reported names is classified as that vendor;
    the name-based series checks are overridden by the encoder list. *)
Theorem detection_recommends_listed_encoders (names : list string) (out : string) :
  let gpus := detect_gputil names (Some out) in
  let r := get_recommended_encoder gpus in
  Forall (fun g => (supports_nvenc g = true -> vendor g = "NVIDIA") /\
                   (supports_vce g = true -> vendor g = "AMD") /\
                   (supports_qsv g = true -> vendor g = "Intel")) gpus /\
  (rec_video_codec r = "hevc_nvenc" ->
   (Py.contains "h264_nvenc" out || Py.contains "hevc_nvenc" out) = true /\
   exists n, In n names /\ determine_vendor n = "NVIDIA") /\
  (rec_video_codec r = "hevc_amf" ->
   (Py.contains "h264_amf" out || Py.contains "hevc_amf" out) = true /\
   exists n, In n names /\ determine_vendor n = "AMD") /\
  (rec_video_codec r = "hevc_qsv" ->
   (Py.contains "h264_qsv" out || Py.contains "hevc_qsv" out) = true /\
   exists n, In n names /\ determine_vendor n = "Intel").
Proof.
  cbv zeta. split.
  - apply check_ffmpeg_encoders_flags. unfold detect_gpus_gputil.
    apply Forall_map. apply Forall_forall. intros n _. apply gputil_gpu_flags.
  - unfold get_recommended_encoder.
    destruct (recommend_loop_source (detect_gputil names (Some out)) default_recommendation)
      as [Hr|(g & Hin & Hg)].
    { rewrite Hr. simpl. repeat split; discriminate. }
    destruct (check_ffmpeg_encoders_vendor _ _ _ Hin)
      as (g0 & Hin0 & Hv & _ & Hn & Ha & Hq).
    unfold detect_gpus_gputil in Hin0. apply in_map_iff in Hin0 as (n & <- & Hn0).
    assert (Hdv : vendor (gputil_gpu n) = determine_vendor n).
    { unfold gputil_gpu. cbv zeta.
      repeat match goal with |- context [if ?b then _ else _] => destruct b end;
        reflexivity. }
    destruct Hg as [(H1 & H2 & ->)|[(H1 & H2 & ->)|(H1 & H2 & ->)]]; simpl;
      (split; [|split]); try (intros Hc; discriminate Hc); intros _;
      (split; [|exists n; split; [exact Hn0|congruence]]).
    + rewrite <- (Hn H1). exact H2.
    + rewrite <- (Ha H1). exact H2.
    + rewrite <- (Hq H1). exact H2.
Qed.

End DetectProps.

(* ------------------------------------------------------------------ *)
(** ** Presets and the parameter bag *)

Module ConfigExtraProps.

Import Config Presets ConfigProps.

Lemma lower_char_idem (a : ascii) :
  PyText.lower_char (PyText.lower_char a) = PyText.lower_char a.
Proof. destruct a as [[] [] [] [] [] [] [] []]; vm_compute; reflexivity. Qed.

Lemma lower_idem (s : string) : PyText.lower (PyText.lower s) = PyText.lower s.
Proof. induction s as [|a s IH]; simpl; [reflexivity|]. rewrite lower_char_idem, IH. reflexivity. Qed.

Lemma assoc_get_cases {A : Type} (k : string) (d : list (string * A)) (def : A) :
  assoc_get k d def = def \/ exists k', In (k', assoc_get k d def) d.
Proof.
  induction d as [|[k' v] d IH]; simpl; [left; reflexivity|].
  destruct (String.eqb k k'); [right; exists k'; left; reflexivity|].
  destruct IH as [H|[k'' H]]; [left; exact H|right; exists k''; right; exact H].
Qed.

(** Keys the codec tuning bundles never set leave the bag as it was. *)
Lemma lookup_after_bundles (c : EncodingConfig) (vc k : string) (X : dict) :
  ~ In k ["rc"; "profile:v"; "level"; "b_ref_mode"; "spatial_aq"; "temporal_aq";
          "quality"; "look_ahead"; "look_ahead_depth"; "x265-params"] ->
  Ref.dict_lookup k
    (if Py.contains "nvenc" vc then dict_update X (nvenc_optimizations c)
     else if Py.contains "amf" vc then dict_update X (amf_optimizations c)
     else if Py.contains "qsv" vc then dict_update X qsv_optimizations
     else if Py.contains "x265" vc || Py.contains "libx265" vc
          then dict_update X x265_optimizations
     else X) = Ref.dict_lookup k X.
Proof.
  intros Hk.
  repeat match goal with
  | |- context [if ?t then _ else _] => destruct t
  end; try reflexivity;
  apply lookup_dict_update_notin;
  intros kv Hin; simpl in Hin;
  repeat destruct Hin as [Hin|Hin]; subst; simpl; try contradiction;
  intros <-; apply Hk; simpl; tauto.
Qed.

Lemma dict_update_cons (d : dict) (kv : string * pyval) (e : dict) :
  dict_update d (kv :: e) = dict_update (dict_set (fst kv) (snd kv) d) e.
Proof. reflexivity. Qed.

(** The successful result of [generate_ffmpeg_params] on a configuration
    without additional parameters, step by step. *)
Lemma generate_ok_shape (c : EncodingConfig) (i o : string) (b s : option string)
    (prm : FFmpegParams) :
  additional_params c = [] ->
  fst (generate_ffmpeg_params c i o b s) = inl prm ->
  let vc := video_codec c in
  let pre := if negb (Py.contains "amf" vc) && negb (Py.contains "qsv" vc)
             then dict_set "preset" (VStr (preset c)) [("vcodec", VStr vc)]
             else [("vcodec", VStr vc)] in
  exists rv,
    ((method c = CRF /\ exists q, Py.int_of_float (value c) = Some q /\
                                  rv = dict_set "crf" (VInt q) pre) \/
     (method c = VBR /\ exists bs t, b = Some bs /\ truthy b = true /\
        calculate_target_bitrate c bs = inl t /\
        rv = dict_set "b:v" (VStr (Py.str_of_Z t)) pre)) /\
    let vf := match s with
              | Some f => if truthy s then dict_set "vf" (VStr f) rv else rv
              | None => rv
              end in
    prm = mkParams i o
      (if Py.contains "nvenc" vc then dict_update vf (nvenc_optimizations c)
       else if Py.contains "amf" vc then dict_update vf (amf_optimizations c)
       else if Py.contains "qsv" vc then dict_update vf qsv_optimizations
       else if Py.contains "x265" vc || Py.contains "libx265" vc
            then dict_update vf x265_optimizations
       else vf)
      (if truthy (hw_accel c)
       then ["-hwaccel"; match hw_accel c with Some h => h | None => "" end]
       else []).
Proof.
  intros Ha H. unfold generate_ffmpeg_params in H. cbv zeta in H |- *.
  rewrite Ha in H. change (dict_update ?X []) with X in H.
  destruct (method c) eqn:Hm.
  - destruct b as [bs|]; [|discriminate].
    destruct (truthy (Some bs)) eqn:Ht; [|discriminate].
    destruct (calculate_target_bitrate c bs) as [t|e] eqn:Hc; [|discriminate].
    simpl in H. injection H as <-.
    eexists. split; [right; split; [reflexivity|]; exists bs, t; auto|].
    reflexivity.
  - destruct (Py.int_of_float (value c)) as [q|] eqn:Hq; [|discriminate].
    simpl in H. injection H as <-.
    eexists. split; [left; split; [reflexivity|]; exists q; auto|].
    reflexivity.
Qed.

Ltac lookup_set :=
  repeat first [ rewrite lookup_dict_set_eq
               | rewrite lookup_dict_set_ne by (discriminate || congruence) ].

(** X3. Every name [get_crf_from_preset] and [get_vbr_from_preset] accept,
    known or not (an unknown name gives 23 and 0.75), yields one of the
    table values, which lie strictly inside the ranges [set_crf_encoding]
    and [set_vbr_encoding] clamp to, so they are stored unchanged; the
    lookup ignores case. *)
Theorem preset_values_survive_clamping (c : EncodingConfig) (name p : string) :
  In (get_crf_from_preset name) [18; 23; 28; 33; 38] /\
  value (set_crf_encoding c (Py.float_of_Z (get_crf_from_preset name)) p)
    = Py.float_of_Z (get_crf_from_preset name) /\
  In (get_vbr_from_preset name) [1.2%float; 1.0%float; 0.75%float; 0.5%float; 0.25%float] /\
  value (set_vbr_encoding c (get_vbr_from_preset name) p) = get_vbr_from_preset name /\
  get_crf_from_preset (PyText.lower name) = get_crf_from_preset name /\
  get_vbr_from_preset (PyText.lower name) = get_vbr_from_preset name.
Proof.
  assert (Hc : In (get_crf_from_preset name) [18; 23; 28; 33; 38]).
  { unfold get_crf_from_preset.
    generalize (assoc_get_cases (PyText.lower name) CRF_PRESETS 23).
    generalize (assoc_get (PyText.lower name) CRF_PRESETS 23). intros v [->|[k Hk]];
      [simpl; tauto|].
    simpl in Hk. repeat destruct Hk as [Hk|Hk]; try contradiction;
      injection Hk as _ <-; simpl; tauto. }
  assert (Hv : In (get_vbr_from_preset name)
                 [1.2%float; 1.0%float; 0.75%float; 0.5%float; 0.25%float]).
  { unfold get_vbr_from_preset.
    generalize (assoc_get_cases (PyText.lower name) VBR_PRESETS 0.75%float).
    generalize (assoc_get (PyText.lower name) VBR_PRESETS 0.75%float). intros v [->|[k Hk]];
      [simpl; tauto|].
    simpl in Hk. repeat destruct Hk as [Hk|Hk]; try contradiction;
      injection Hk as _ <-; simpl; tauto. }
  split; [exact Hc|]. split.
  { simpl in Hc. repeat destruct Hc as [Hc|Hc]; try contradiction;
      rewrite <- Hc; vm_compute; reflexivity. }
  split; [exact Hv|]. split.
  { simpl in Hv. repeat destruct Hv as [Hv|Hv]; try contradiction;
      rewrite <- Hv; vm_compute; reflexivity. }
  unfold get_crf_from_preset, get_vbr_from_preset. rewrite lower_idem. auto.
Qed.

(** X4. On a configuration the manager can hold, a successful
    [generate_ffmpeg_params] returns a bag whose ['vcodec'] is the
    configured codec, with ['preset'] exactly when the codec names neither
    [amf] nor [qsv], ['vf'] exactly when a non-empty scale filter is
    given, ['rc'] set by the NVENC (['vbr']/['cqp']) or AMF
    (['vbr_peak']/['cqp']) bundle only, and the global arguments
    [-hwaccel h] exactly when a non-empty [hw_accel] is configured. *)
Theorem generate_ffmpeg_params_bag_layout (c : EncodingConfig) (i o : string)
    (b s : option string) (prm : FFmpegParams) :
  Ref.reachable c ->
  fst (generate_ffmpeg_params c i o b s) = inl prm ->
  let vc := video_codec c in
  let vp := video_params prm in
  input_config prm = i /\ output_file prm = o /\
  global_args prm = (match hw_accel c with
                     | Some h => if truthy (Some h) then ["-hwaccel"; h] else []
                     | None => []
                     end) /\
  Ref.dict_lookup "vcodec" vp = Some (VStr vc) /\
  Ref.dict_lookup "preset" vp
    = (if Py.contains "amf" vc || Py.contains "qsv" vc then None
       else Some (VStr (preset c))) /\
  Ref.dict_lookup "vf" vp
    = (match s with Some f => if truthy s then Some (VStr f) else None | None => None end) /\
  Ref.dict_lookup "rc" vp
    = (if Py.contains "nvenc" vc
       then Some (VStr (match method c with VBR => "vbr" | CRF => "cqp" end))
       else if Py.contains "amf" vc
       then Some (VStr (match method c with VBR => "vbr_peak" | CRF => "cqp" end))
       else None).
Proof.
  intros Hr H. cbv zeta.
  destruct (generate_ok_shape c i o b s prm (reachable_no_additional_params c Hr) H)
    as (rv & Hrv & ->).
  cbv zeta. cbn [video_params input_config output_file global_args].
  split; [reflexivity|]. split; [reflexivity|]. split.
  { destruct (hw_accel c) as [h|]; reflexivity. }
  assert (Hrv' : exists k v, rv = dict_set k v
             (if negb (Py.contains "amf" (video_codec c)) && negb (Py.contains "qsv" (video_codec c))
              then dict_set "preset" (VStr (preset c)) [("vcodec", VStr (video_codec c))]
              else [("vcodec", VStr (video_codec c))]) /\ (k = "crf" \/ k = "b:v")).
  { destruct Hrv as [(_ & q & _ & ->)|(_ & bs & t & _ & _ & _ & ->)]; eauto. }
  destruct Hrv' as (k & v & -> & Hk).
  assert (Hvf : forall key, key <> "vf" -> key <> k ->
    Ref.dict_lookup key (match s with
                         | Some f => if truthy s then dict_set "vf" (VStr f)
                                       (dict_set k v
             (if negb (Py.contains "amf" (video_codec c)) && negb (Py.contains "qsv" (video_codec c))
              then dict_set "preset" (VStr (preset c)) [("vcodec", VStr (video_codec c))]
              else [("vcodec", VStr (video_codec c))]))
                                     else dict_set k v
             (if negb (Py.contains "amf" (video_codec c)) && negb (Py.contains "qsv" (video_codec c))
              then dict_set "preset" (VStr (preset c)) [("vcodec", VStr (video_codec c))]
              else [("vcodec", VStr (video_codec c))])
                         | None => dict_set k v
             (if negb (Py.contains "amf" (video_codec c)) && negb (Py.contains "qsv" (video_codec c))
              then dict_set "preset" (VStr (preset c)) [("vcodec", VStr (video_codec c))]
              else [("vcodec", VStr (video_codec c))])
                         end)
    = Ref.dict_lookup key
             (if negb (Py.contains "amf" (video_codec c)) && negb (Py.contains "qsv" (video_codec c))
              then dict_set "preset" (VStr (preset c)) [("vcodec", VStr (video_codec c))]
              else [("vcodec", VStr (video_codec c))])).
  { intros key H1 H2.
    destruct s as [f|]; [destruct (truthy (Some f))|];
      repeat (rewrite lookup_dict_set_ne by assumption); reflexivity. }
  assert (Hkv : k <> "vcodec" /\ k <> "preset" /\ k <> "vf" /\ k <> "rc")
    by (destruct Hk as [->| ->]; repeat split; discriminate).
  destruct Hkv as (Hk1 & Hk2 & Hk3 & Hk4).
  split.
  { rewrite lookup_after_bundles by (simpl; intuition discriminate).
    rewrite Hvf by (discriminate || congruence).
    destruct (negb _ && negb _); lookup_set; reflexivity. }
  split.
  { rewrite lookup_after_bundles by (simpl; intuition discriminate).
    rewrite Hvf by (discriminate || congruence).
    destruct (Py.contains "amf" (video_codec c)), (Py.contains "qsv" (video_codec c));
      simpl; lookup_set; reflexivity. }
  split.
  { rewrite lookup_after_bundles by (simpl; intuition discriminate).
    destruct s as [f|]; [destruct (truthy (Some f))|]; lookup_set; try reflexivity;
    destruct (negb _ && negb _); lookup_set; reflexivity. }
  assert (Hrc : forall X, Ref.dict_lookup "rc" X = None ->
    Ref.dict_lookup "rc"
      (if Py.contains "nvenc" (video_codec c) then dict_update X (nvenc_optimizations c)
       else if Py.contains "amf" (video_codec c) then dict_update X (amf_optimizations c)
       else if Py.contains "qsv" (video_codec c) then dict_update X qsv_optimizations
       else if Py.contains "x265" (video_codec c) || Py.contains "libx265" (video_codec c)
            then dict_update X x265_optimizations
       else X)
    = (if Py.contains "nvenc" (video_codec c)
       then Some (VStr (match method c with VBR => "vbr" | CRF => "cqp" end))
       else if Py.contains "amf" (video_codec c)
       then Some (VStr (match method c with VBR => "vbr_peak" | CRF => "cqp" end))
       else None)).
  { intros X HX.
    destruct (Py.contains "nvenc" (video_codec c)).
    { unfold nvenc_optimizations. rewrite dict_update_cons.
      rewrite lookup_dict_update_notin.
      - apply lookup_dict_set_eq.
      - intros kv Hin. simpl in Hin. repeat destruct Hin as [Hin|Hin]; subst; simpl;
          try contradiction; discriminate. }
    destruct (Py.contains "amf" (video_codec c)).
    { unfold amf_optimizations. simpl dict_set.
      rewrite dict_update_cons, dict_update_cons, dict_update_cons.
      rewrite lookup_dict_update_notin.
      - apply lookup_dict_set_eq.
      - intros kv Hin. simpl in Hin. repeat destruct Hin as [Hin|Hin]; subst; simpl;
          try contradiction; discriminate. }
    destruct (Py.contains "qsv" (video_codec c)).
    { rewrite lookup_dict_update_notin; [exact HX|].
      intros kv Hin. simpl in Hin. repeat destruct Hin as [Hin|Hin]; subst; simpl;
        try contradiction; discriminate. }
    destruct (_ || _); [|exact HX].
    rewrite lookup_dict_update_notin; [exact HX|].
    intros kv Hin. simpl in Hin. repeat destruct Hin as [Hin|Hin]; subst; simpl;
      try contradiction; discriminate. }
  apply Hrc. rewrite Hvf by (discriminate || congruence).
  destruct (negb _ && negb _); lookup_set; reflexivity.
Qed.

Lemma generate_ffmpeg_params_bag_layout_witness :
  let c := set_hardware_acceleration init_config (Some "cuda") "hevc_nvenc" in
  exists prm,
    fst (generate_ffmpeg_params c "in.mp4" "out.mp4" None (Some "scale=1280:720"))
      = inl prm /\
    global_args prm = ["-hwaccel"; "cuda"] /\
    Ref.dict_lookup "rc" (video_params prm) = Some (VStr "cqp").
Proof.
  cbv zeta. eexists. split; [reflexivity|].
  refine (match generate_ffmpeg_params_bag_layout
                  (set_hardware_acceleration init_config (Some "cuda") "hevc_nvenc")
                  "in.mp4" "out.mp4" None (Some "scale=1280:720") _
                  (Ref.reach_hw _ _ _ Ref.reach_init) eq_refl
          with conj _ (conj _ (conj G (conj _ (conj _ (conj _ R))))) => conj G R end).
Defined.

(** X5. On a configuration the manager can hold, a successful CRF build puts
    [int(value)] under ['crf'] and no ['b:v']; a successful VBR build
    needs a non-empty source bitrate, puts the target bitrate's decimal
    string under ['b:v'] and no ['crf']. *)
Theorem generate_ffmpeg_params_rate_control (c : EncodingConfig) (i o : string)
    (b s : option string) (prm : FFmpegParams) :
  Ref.reachable c ->
  fst (generate_ffmpeg_params c i o b s) = inl prm ->
  let vp := video_params prm in
  (method c = CRF ->
   Ref.dict_lookup "b:v" vp = None /\
   exists q, Py.int_of_float (value c) = Some q /\ Ref.dict_lookup "crf" vp = Some (VInt q)) /\
  (method c = VBR ->
   Ref.dict_lookup "crf" vp = None /\
   exists bs t, b = Some bs /\ truthy b = true /\ calculate_target_bitrate c bs = inl t /\
     Ref.dict_lookup "b:v" vp = Some (VStr (Py.str_of_Z t))).
Proof.
  intros Hr H. cbv zeta.
  destruct (generate_ok_shape c i o b s prm (reachable_no_additional_params c Hr) H)
    as (rv & Hrv & ->).
  cbv zeta. cbn [video_params].
  destruct Hrv as [(Hm & q & Hq & ->)|(Hm & bs & t & Hb & Ht & Hc & ->)]; rewrite Hm.
  - split; [intros _|intros E; discriminate E]. split.
    + rewrite lookup_after_bundles by (simpl; intuition discriminate).
      destruct s as [f|]; [destruct (truthy (Some f))|]; lookup_set;
      destruct (negb _ && negb _); lookup_set; reflexivity.
    + exists q. split; [exact Hq|].
      rewrite lookup_after_bundles by (simpl; intuition discriminate).
      destruct s as [f|]; [destruct (truthy (Some f))|]; lookup_set; reflexivity.
  - split; [intros E; discriminate E|intros _]. split.
    + rewrite lookup_after_bundles by (simpl; intuition discriminate).
      destruct s as [f|]; [destruct (truthy (Some f))|]; lookup_set;
      destruct (negb _ && negb _); lookup_set; reflexivity.
    + exists bs, t. split; [exact Hb|]. split; [exact Ht|]. split; [exact Hc|].
      rewrite lookup_after_bundles by (simpl; intuition discriminate).
      destruct s as [f|]; [destruct (truthy (Some f))|]; lookup_set; reflexivity.
Qed.

Lemma generate_ffmpeg_params_rate_control_witness :
  let c := set_vbr_encoding init_config 0.5%float "medium" in
  exists prm,
    fst (generate_ffmpeg_params c "in.mp4" "out.mp4" (Some "4000000") None) = inl prm /\
    Ref.dict_lookup "crf" (video_params prm) = None.
Proof.
  cbv zeta. eexists. split; [vm_compute; reflexivity|].
  exact (proj1 (proj2 (generate_ffmpeg_params_rate_control
                  (set_vbr_encoding init_config 0.5%float "medium")
                  "in.mp4" "out.mp4" (Some "4000000") None _
                  (Ref.reach_vbr _ _ _ Ref.reach_init) eq_refl) eq_refl)).
Defined.

End ConfigExtraProps.

(* ------------------------------------------------------------------ *)
(** ** The setters of [VideoEncoder] *)

Module EncoderOpsProps.

Import Config Hardware Encoder EncoderOps.

Lemma vendor_of_codec_id (ct : VideoCodec) (v : Ref.Vendor) :
  Ref.vendor_of_codec (Ref.codec_id ct v) = v.
Proof. destruct ct, v; vm_compute; reflexivity. Qed.

Lemma set_codec_type_video_codec (c : EncodingConfig) (ct : VideoCodec) (hw : option string) :
  video_codec (Config.set_codec_type c ct hw)
  = if truthy hw then Ref.codec_id ct (Ref.vendor_of_codec (video_codec c))
    else Ref.codec_id ct Ref.Software.
Proof.
  unfold Config.set_codec_type, Ref.vendor_of_codec. simpl.
  destruct (truthy hw); [|destruct ct; reflexivity].
  destruct ct;
    destruct (Py.contains "nvenc" (video_codec c)); try reflexivity;
    destruct (Py.contains "amf" (video_codec c)); try reflexivity;
    destruct (Py.contains "qsv" (video_codec c)); reflexivity.
Qed.

(** What a fresh encoder holds, for each recommendation shape. *)
Lemma init_codec_state (gpus : list GPUInfo) :
  let c := encoder_init_config gpus in
  let r := get_recommended_encoder gpus in
  hw_accel c = rec_hw_accel r /\
  video_codec c = Ref.codec_id (codec_type c) (Ref.vendor_of_codec (rec_video_codec r)) /\
  (truthy (rec_hw_accel r) = false -> Ref.vendor_of_codec (rec_video_codec r) = Ref.Software).
Proof.
  cbv zeta. unfold encoder_init_config, apply_hardware_recommendations.
  assert (Hs : CodecProps.rec_shape (get_recommended_encoder gpus)).
  { apply CodecProps.recommend_loop_shape. unfold CodecProps.rec_shape. simpl. auto. }
  destruct (get_recommended_encoder gpus) as [rh rv rd].
  unfold CodecProps.rec_shape in Hs. cbn [rec_hw_accel rec_video_codec] in *.
  destruct Hs as [[-> ->]|[[-> ->]|[[-> ->]|[-> ->]]]]; vm_compute; auto;
    (split; [reflexivity|split; [reflexivity|discriminate]]).
Qed.

Lemma run_calls_codec_family (hw : option string) (V : Ref.Vendor)
    (calls : list EncoderCall) (e : VideoEncoder) :
  (truthy hw = false -> V = Ref.Software) ->
  hw_accel (encoding_config e) = hw ->
  video_codec (encoding_config e) = Ref.codec_id (codec_type (encoding_config e)) V ->
  let c := encoding_config (run_calls e calls) in
  hw_accel c = hw /\ video_codec c = Ref.codec_id (codec_type c) V.
Proof.
  intros HV. unfold run_calls. revert e.
  induction calls as [|call calls IH]; intros e Hh Hv; simpl; [auto|].
  apply IH.
  - destruct call as [p|[] v p|ct]; exact Hh.
  - destruct call as [p|[] v p|ct]; [exact Hv|exact Hv|exact Hv|].
    unfold apply_call, EncoderOps.set_codec_type. cbn [encoding_config].
    rewrite set_codec_type_video_codec, Hh.
    destruct (truthy hw) eqn:Ht.
    + rewrite Hv, vendor_of_codec_id. reflexivity.
    + rewrite (HV eq_refl). reflexivity.
Qed.

(** X6. Whatever sequence of [set_resolution_preset], [set_encoding_method]
    and [set_codec_type] calls follows the constructor, the encoder keeps
    the [hw_accel] the detector recommended, and its codec id stays in
    the recommended vendor family (NVENC, AMF, QSV or software), matching
    the current codec type: [set_codec_type] switches between H.264 and
    H.265 of that family and cannot leave it. *)
Theorem encoder_codec_family_invariant (gpus : list GPUInfo) (calls : list EncoderCall) :
  let c := encoding_config (run_calls (init gpus) calls) in
  let r := get_recommended_encoder gpus in
  hw_accel c = rec_hw_accel r /\
  video_codec c = Ref.codec_id (codec_type c) (Ref.vendor_of_codec (rec_video_codec r)).
Proof.
  destruct (init_codec_state gpus) as (H1 & H2 & H3).
  exact (run_calls_codec_family _ _ calls (init gpus) H3 H1 H2).
Qed.

End EncoderOpsProps.

(* ------------------------------------------------------------------ *)
(** ** Output names and discovery *)

Module DiscoverProps.

Import Video Encoder.

Lemma str_app_assoc (a b c : string) : ((a ++ b) ++ c)%string = (a ++ (b ++ c))%string.
Proof. induction a as [|x a IH]; [reflexivity|]. exact (f_equal (String x) IH). Qed.

Lemma str_length_app (a b : string) :
  String.length (a ++ b) = (String.length a + String.length b)%nat.
Proof. induction a as [|x a IH]; [reflexivity|]. exact (f_equal S IH). Qed.

Lemma split_last_app (c : ascii) (s pre post : string) :
  split_last c s = Some (pre, post) -> s = (pre ++ String c post)%string.
Proof.
  revert pre post. induction s as [|a s IH]; intros pre post H; simpl in H; [discriminate|].
  destruct (split_last c s) as [[pre' post']|] eqn:E.
  - injection H as <- <-. rewrite (IH pre' post' eq_refl). reflexivity.
  - destruct (Ascii.eqb a c) eqn:Ea; [|discriminate]. injection H as <- <-.
    apply Ascii.eqb_eq in Ea. subst. reflexivity.
Qed.

Lemma is_prefix_app (p b : string) : Py.is_prefix p (p ++ b) = true.
Proof.
  induction p as [|a p IH]; simpl; [reflexivity|]. rewrite Ascii.eqb_refl. exact IH.
Qed.

Lemma contains_prefix (sub b : string) : Py.contains sub (sub ++ b) = true.
Proof.
  destruct (sub ++ b)%string eqn:E; simpl.
  - destruct sub; [reflexivity|discriminate].
  - rewrite <- E, is_prefix_app. reflexivity.
Qed.

Lemma contains_app_l (sub a s : string) :
  Py.contains sub s = true -> Py.contains sub (a ++ s) = true.
Proof.
  intros H. induction a as [|x a IH]; simpl; [exact H|]. rewrite IH. apply orb_true_r.
Qed.

Lemma load_file_path (p : string) (sz : option Z) (att : list (option Probe)) :
  file_path (load p sz att) = p.
Proof.
  unfold load. destruct sz; [|reflexivity].
  destruct (probe_with_retries 3 att) as [pr|]; [|reflexivity].
  destruct (first_video_stream (streams pr)); reflexivity.
Qed.

(** With a suffix, the output name is the input path with [_encoded]
    inserted before it. *)
Lemma output_filename_shape (vf : VideoFile) :
  snd (stem_suffix (snd (name_of (file_path vf)))) <> EmptyString ->
  exists pre, file_path vf = (pre ++ snd (stem_suffix (snd (name_of (file_path vf)))))%string /\
    get_output_filename vf
    = (pre ++ "_encoded" ++ snd (stem_suffix (snd (name_of (file_path vf)))))%string.
Proof.
  unfold get_output_filename.
  destruct (name_of (file_path vf)) as [dir name] eqn:En. simpl snd.
  unfold stem_suffix.
  destruct (split_last "." name) as [[pre post]|] eqn:Es; [|intros H; contradiction].
  destruct (negb (String.eqb pre "") && negb (String.eqb post "")); [|intros H; contradiction].
  intros _. simpl fst. simpl snd.
  apply split_last_app in Es.
  unfold name_of in En.
  destruct (split_last "/" (file_path vf)) as [[d n]|] eqn:Ed.
  - injection En as <- <-. apply split_last_app in Ed.
    exists (d ++ "/" ++ pre)%string. rewrite Ed, Es.
    rewrite !str_app_assoc. split; reflexivity.
  - injection En as <- <-. exists pre. rewrite Es at 1. split; reflexivity.
Qed.

(** X7. Every file [discover_video_files] returns has a supported extension;
    its output name is its path with [_encoded] inserted before that
    extension, differs from it, and is rejected by the discovery filter,
    so a later discovery over the same tree never picks an encoded output
    up again as a source. *)
Theorem discovered_output_not_rediscovered (self : VideoEncoder) (target_exists : bool)
    (globbed : list Candidate) (vfs : list VideoFile) :
  discover_video_files self target_exists globbed = inl vfs ->
  forall vf, In vf vfs ->
  exists pre ext,
    file_path vf = (pre ++ ext)%string /\
    get_output_filename vf = (pre ++ "_encoded" ++ ext)%string /\
    In (lower ext) SUPPORTED_EXTENSIONS /\
    get_output_filename vf <> file_path vf /\
    forall is_file size probes,
      candidate_filter (mkCandidate (get_output_filename vf) is_file size probes) = false.
Proof.
  unfold discover_video_files. destruct target_exists; simpl; [|discriminate].
  intros H. injection H as <-. intros vf Hin.
  assert (Hc : exists c, candidate_filter c = true /\
                 vf = load (c_path c) (c_size c) (c_probes c)).
  { induction globbed as [|c cs IH]; simpl in Hin; [contradiction|].
    destruct (candidate_filter c) eqn:Ef; [|exact (IH Hin)].
    destruct (is_valid (load (c_path c) (c_size c) (c_probes c))); [|exact (IH Hin)].
    destruct Hin as [<-|Hin]; [eauto|exact (IH Hin)]. }
  destruct Hc as (c & Hf & ->).
  set (vf := load (c_path c) (c_size c) (c_probes c)).
  assert (Hp : file_path vf = c_path c) by apply load_file_path.
  set (ext := snd (stem_suffix (snd (name_of (file_path vf))))).
  assert (Hext : In (lower ext) SUPPORTED_EXTENSIONS).
  { unfold candidate_filter in Hf. apply andb_true_iff in Hf as [Hf _].
    apply andb_true_iff in Hf as [Hf _]. apply andb_true_iff in Hf as [_ Hf].
    apply existsb_exists in Hf as (x & Hx & Ex). apply String.eqb_eq in Ex.
    unfold ext. rewrite Hp. rewrite Ex. exact Hx. }
  assert (Hne : ext <> EmptyString).
  { intros E. rewrite E in Hext. simpl in Hext. intuition discriminate. }
  destruct (output_filename_shape vf Hne) as (pre & H1 & H2). fold ext in H1, H2.
  exists pre, ext. split; [exact H1|]. split; [exact H2|]. split; [exact Hext|]. split.
  - intros E. apply (f_equal String.length) in E. rewrite H1, H2 in E.
    rewrite !str_length_app in E. simpl in E. lia.
  - intros is_file size probes. unfold candidate_filter. cbn [c_path].
    assert (Hd : exists post, ext = String "." post).
    { unfold ext in Hne |- *. unfold stem_suffix in Hne |- *.
      destruct (split_last "." (snd (name_of (file_path vf)))) as [[a b]|];
        [|simpl in Hne; contradiction].
      destruct (negb _ && negb _); [eauto|simpl in Hne; contradiction]. }
    destruct Hd as [post Hd].
    assert (Hcont : Py.contains "_encoded." (get_output_filename vf) = true).
    { rewrite H2, Hd. apply contains_app_l. exact (contains_prefix "_encoded." post). }
    rewrite Hcont. simpl negb. rewrite andb_false_r. reflexivity.
Qed.

Lemma discovered_output_not_rediscovered_witness :
  exists vfs,
    discover_video_files (init [])
      true [mkCandidate "movies/trip.MP4" true (Some 5000000)
              [Some (mkProbe [mkStream "video" (Some "4000000") (Some "h264")
                                (Some 1920) (Some 1080)] (Some (Some "4100000")))]]
    = inl vfs /\
    forall vf, In vf vfs ->
      get_output_filename vf <> file_path vf.
Proof.
  eexists. split; [vm_compute; reflexivity|].
  intros vf Hin.
  destruct (discovered_output_not_rediscovered (init []) true
              [mkCandidate "movies/trip.MP4" true (Some 5000000)
                 [Some (mkProbe [mkStream "video" (Some "4000000") (Some "h264")
                                   (Some 1920) (Some 1080)] (Some (Some "4100000")))]]
              _ eq_refl vf Hin) as (pre & ext & _ & _ & _ & H & _).
  exact H.
Defined.

End DiscoverProps.

(* ------------------------------------------------------------------ *)
(** ** [cleanup_failed_files] *)

Module CleanupProps.

Import Video Encoder Cleanup.

Lemma remove_some (fs fs' : FS.FS) (p : string) :
  FS.remove fs p = Some fs' ->
  FS.files fs' = delete p (FS.files fs) /\ FS.undeletable fs' = FS.undeletable fs /\
  is_Some (FS.files fs !! p) /\ p ∉ FS.undeletable fs.
Proof.
  unfold FS.remove, FS.exists_.
  destruct (FS.files fs !! p) eqn:E; [|discriminate].
  destruct (bool_decide (p ∈ FS.undeletable fs)) eqn:Eu; [discriminate|].
  simpl. intros H. injection H as <-. apply bool_decide_eq_false in Eu.
  simpl. repeat split; eauto.
Qed.

Lemma remove_none (fs : FS.FS) (p : string) :
  FS.remove fs p = None -> FS.files fs !! p = None \/ p ∈ FS.undeletable fs.
Proof.
  unfold FS.remove, FS.exists_.
  destruct (FS.files fs !! p) eqn:E; [|auto].
  destruct (bool_decide (p ∈ FS.undeletable fs)) eqn:Eu; [|discriminate].
  apply bool_decide_eq_true in Eu. auto.
Qed.

(** What a cleanup pass may do: remove files, one per count, each of them
    named by [allowed]. *)
Definition only_removes (allowed : string -> Prop) (fs fs' : FS.FS) (c c' : nat) : Prop :=
  FS.undeletable fs' = FS.undeletable fs /\
  FS.files fs' ⊆ FS.files fs /\
  (forall p, is_Some (FS.files fs !! p) -> FS.files fs' !! p = None -> allowed p) /\
  (size (FS.files fs) + c = size (FS.files fs') + c')%nat.

Lemma only_removes_refl (allowed : string -> Prop) (fs : FS.FS) (c : nat) :
  only_removes allowed fs fs c c.
Proof.
  split; [reflexivity|]. split; [reflexivity|]. split; [|reflexivity].
  intros p [v Hv] Hn. congruence.
Qed.

Lemma only_removes_step (allowed : string -> Prop) (fs fs1 fs' : FS.FS) (p : string)
    (c c' : nat) :
  FS.remove fs p = Some fs1 -> allowed p ->
  only_removes allowed fs1 fs' (S c) c' -> only_removes allowed fs fs' c c'.
Proof.
  intros Hr Hp (H1 & H2 & H3 & H4).
  destruct (remove_some _ _ _ Hr) as (E1 & E2 & E3 & _).
  split; [congruence|]. split.
  { transitivity (FS.files fs1); [exact H2|]. rewrite E1. apply delete_subseteq. }
  split.
  { intros q Hq Hq'. destruct (decide (q = p)) as [->|Hne]; [exact Hp|].
    apply H3; [|exact Hq']. rewrite E1, lookup_delete_ne by congruence. exact Hq. }
  rewrite E1, map_size_delete_Some in H4 by exact E3.
  destruct (size (FS.files fs)) eqn:Es; [|simpl in H4; lia].
  apply map_size_empty_iff in Es. rewrite Es in E3. destruct E3 as [v Hv].
  rewrite lookup_empty in Hv. discriminate.
Qed.

Lemma only_removes_mono (A B : string -> Prop) (fs fs' : FS.FS) (c c' : nat) :
  (forall p, A p -> B p) -> only_removes A fs fs' c c' -> only_removes B fs fs' c c'.
Proof. intros HAB (H1 & H2 & H3 & H4). repeat split; auto. Qed.

Lemma only_removes_trans (A : string -> Prop) (fs fs1 fs2 : FS.FS) (c c1 c2 : nat) :
  only_removes A fs fs1 c c1 -> only_removes A fs1 fs2 c1 c2 -> only_removes A fs fs2 c c2.
Proof.
  intros (H1 & H2 & H3 & H4) (G1 & G2 & G3 & G4).
  split; [congruence|]. split; [etransitivity; eauto|]. split; [|lia].
  intros p Hp Hp'. destruct (FS.files fs1 !! p) eqn:E.
  - apply G3; [eauto|exact Hp'].
  - apply H3; [exact Hp|exact E].
Qed.

Lemma cleanup_failed_effect (ps : list string) (fs : FS.FS) (c : nat) :
  let r := cleanup_failed ps fs c in
  only_removes (fun p => exists q, In q ps /\ p = output_of_path q) fs (fst r) c (snd r) /\
  (forall q, In q ps -> output_of_path q ∉ FS.undeletable fs ->
   FS.files (fst r) !! output_of_path q = None).
Proof.
  revert fs c. induction ps as [|q ps IH]; intros fs c; simpl.
  { split; [apply only_removes_refl|]. intros q []. }
  destruct (FS.exists_ fs (output_of_path q)) eqn:Ex.
  - destruct (FS.remove fs (output_of_path q)) as [fs1|] eqn:Er.
    + destruct (IH fs1 (S c)) as [HR HA].
      destruct (remove_some _ _ _ Er) as (E1 & E2 & _ & _).
      split.
      * eapply only_removes_step; [exact Er|eauto|].
        eapply only_removes_mono; [|exact HR]. intros p (q' & Hq' & ->); eauto.
      * intros q' [<-|Hq'] Hu.
        -- destruct HR as (_ & HS & _). destruct (FS.files (fst (cleanup_failed ps fs1 (S c)))
                                                    !! output_of_path q) eqn:E; [|reflexivity].
           exfalso. pose proof (lookup_weaken _ _ _ _ E HS) as Hw.
           rewrite E1, lookup_delete in Hw. destruct (decide _); [discriminate|congruence].
        -- apply HA; [exact Hq'|congruence].
    + destruct (IH fs c) as [HR HA].
      destruct (remove_none _ _ Er) as [Hn|Hu].
      { unfold FS.exists_ in Ex. rewrite Hn in Ex. discriminate. }
      split.
      * eapply only_removes_mono; [|exact HR]. intros p (q' & Hq' & ->); eauto.
      * intros q' [<-|Hq'] Hu'; [contradiction|]. apply HA; [exact Hq'|exact Hu'].
  - destruct (IH fs c) as [HR HA]. split.
    + eapply only_removes_mono; [|exact HR]. intros p (q' & Hq' & ->); eauto.
    + intros q' [<-|Hq'] Hu.
      * destruct HR as (_ & HS & _). destruct (FS.files (fst (cleanup_failed ps fs c))
                                                  !! output_of_path q) eqn:E; [|reflexivity].
        pose proof (lookup_weaken _ _ _ _ E HS) as Hw.
        unfold FS.exists_ in Ex. rewrite Hw in Ex. discriminate.
      * apply HA; [exact Hq'|exact Hu].
Qed.

Lemma cleanup_orphans_effect (vfs : list VideoFile) (fs : FS.FS) (c : nat) :
  let '(fs', c', _) := cleanup_orphans vfs fs c in
  only_removes (fun p => exists vf, In vf vfs /\ p = get_output_filename vf) fs fs' c c'.
Proof.
  revert fs c. induction vfs as [|vf vfs IH]; intros fs c; simpl; [apply only_removes_refl|].
  assert (Hm : forall fs1 c1, only_removes (fun p => exists vf', In vf' vfs /\ p = get_output_filename vf') fs1
                 (fst (fst (cleanup_orphans vfs fs1 c1))) c1 (snd (fst (cleanup_orphans vfs fs1 c1))) ->
               only_removes (fun p => exists vf', (vf = vf' \/ In vf' vfs) /\ p = get_output_filename vf') fs1
                 (fst (fst (cleanup_orphans vfs fs1 c1))) c1 (snd (fst (cleanup_orphans vfs fs1 c1)))).
  { intros fs1 c1. apply only_removes_mono. intros p (vf' & H & ->); eauto. }
  assert (HI : forall fs1 c1, only_removes (fun p => exists vf', In vf' vfs /\ p = get_output_filename vf') fs1
                 (fst (fst (cleanup_orphans vfs fs1 c1))) c1 (snd (fst (cleanup_orphans vfs fs1 c1)))).
  { intros fs1 c1. specialize (IH fs1 c1). destruct (cleanup_orphans vfs fs1 c1) as [[a b] d]. exact IH. }
  destruct (FS.exists_ fs (get_output_filename vf)).
  2:{ specialize (Hm fs c (HI fs c)). destruct (cleanup_orphans vfs fs c) as [[a b] d]. exact Hm. }
  destruct (FS.getsize fs (get_output_filename vf)) as [sz|]; [|apply only_removes_refl].
  destruct (sz <? 1024); [|specialize (Hm fs c (HI fs c));
                             destruct (cleanup_orphans vfs fs c) as [[a b] d]; exact Hm].
  destruct (FS.remove fs (get_output_filename vf)) as [fs1|] eqn:Er; [|apply only_removes_refl].
  specialize (Hm fs1 (S c) (HI fs1 (S c))).
  destruct (cleanup_orphans vfs fs1 (S c)) as [[a b] d].
  eapply only_removes_step; [exact Er|eauto|exact Hm].
Qed.

(** X8. [cleanup_failed_files] only removes files: each one is the output
    name of a path of [failed_file_paths] or of a discovered file, the
    refused removals leave files in place, and [cleaned_count] is exactly
    the number of files removed. Every failed path whose output exists
    and may be removed loses it. *)
Theorem cleanup_failed_files_effect (failed : list string) (vfs : list VideoFile)
    (fs : FS.FS) :
  let fs' := fst (cleanup_failed_files failed vfs fs) in
  let cleaned := snd (cleanup_failed_files failed vfs fs) in
  FS.undeletable fs' = FS.undeletable fs /\
  FS.files fs' ⊆ FS.files fs /\
  (forall p, is_Some (FS.files fs !! p) -> FS.files fs' !! p = None ->
     (exists q, In q failed /\ p = output_of_path q) \/
     (exists vf, In vf vfs /\ p = get_output_filename vf)) /\
  size (FS.files fs) = (size (FS.files fs') + cleaned)%nat /\
  (forall q, In q failed -> output_of_path q ∉ FS.undeletable fs ->
   FS.files fs' !! output_of_path q = None).
Proof.
  unfold cleanup_failed_files.
  destruct (cleanup_failed_effect failed fs 0) as [HF HA].
  destruct (cleanup_failed failed fs 0) as [fs1 c1] eqn:E1. simpl fst in *. simpl snd in *.
  pose proof (cleanup_orphans_effect vfs fs1 c1) as HO.
  destruct (cleanup_orphans vfs fs1 c1) as [[fs2 c2] b]. simpl.
  assert (HT : only_removes (fun p => (exists q, In q failed /\ p = output_of_path q) \/
                                      (exists vf, In vf vfs /\ p = get_output_filename vf))
                 fs fs2 0 c2).
  { eapply only_removes_trans.
    - eapply only_removes_mono; [|exact HF]. auto.
    - eapply only_removes_mono; [|exact HO]. auto. }
  destruct HT as (T1 & T2 & T3 & T4).
  split; [exact T1|]. split; [exact T2|]. split; [exact T3|]. split; [lia|].
  intros q Hq Hu. destruct (FS.files fs2 !! output_of_path q) eqn:E; [|reflexivity].
  destruct HO as (_ & HS & _).
  pose proof (lookup_weaken _ _ _ _ E HS) as Hw. rewrite (HA q Hq Hu) in Hw. discriminate.
Qed.

Lemma cleanup_orphans_app (pre rest : list VideoFile) (fs fs1 : FS.FS) (c c1 : nat) :
  cleanup_orphans pre fs c = (fs1, c1, false) ->
  cleanup_orphans (pre ++ rest) fs c = cleanup_orphans rest fs1 c1.
Proof.
  revert fs c. induction pre as [|vf pre IH]; intros fs c H; simpl in *.
  { injection H as <- <-. reflexivity. }
  destruct (FS.exists_ fs (get_output_filename vf)); [|exact (IH _ _ H)].
  destruct (FS.getsize fs (get_output_filename vf)) as [sz|]; [|discriminate].
  destruct (sz <? 1024); [|exact (IH _ _ H)].
  destruct (FS.remove fs (get_output_filename vf)); [exact (IH _ _ H)|discriminate].
Qed.

(** X9. The orphan loop sits inside one [try]: the first small output whose
    removal is refused ends it, so the small (incomplete) outputs of the
    files after it stay on disk and are not counted. *)
Theorem cleanup_orphans_stops_at_refusal (pre post : list VideoFile) (vf : VideoFile)
    (fs fs1 : FS.FS) (c c1 : nat) (sz : Z) :
  cleanup_orphans pre fs c = (fs1, c1, false) ->
  FS.getsize fs1 (get_output_filename vf) = Some sz -> sz < 1024 ->
  get_output_filename vf ∈ FS.undeletable fs1 ->
  cleanup_orphans (pre ++ vf :: post) fs c = (fs1, c1, true).
Proof.
  intros H Hs Hlt Hu. rewrite (cleanup_orphans_app _ _ _ _ _ _ H). simpl.
  unfold FS.remove, FS.exists_. unfold FS.getsize in *. rewrite Hs.
  rewrite (proj2 (Z.ltb_lt sz 1024) Hlt).
  rewrite bool_decide_eq_true_2 by exact Hu. reflexivity.
Qed.

Lemma cleanup_orphans_stops_at_refusal_witness :
  let a := mkVideoFile "a.mp4" 0 None None None None in
  let b := mkVideoFile "b.mp4" 0 None None None None in
  let fs := FS.mkFS (<["a_encoded.mp4" := 100]> (<["b_encoded.mp4" := 200]> ∅))
                    {["a_encoded.mp4"]} in
  cleanup_orphans [a; b] fs 0 = (fs, 0%nat, true).
Proof.
  cbv zeta.
  refine (cleanup_orphans_stops_at_refusal [] [mkVideoFile "b.mp4" 0 None None None None]
            (mkVideoFile "a.mp4" 0 None None None None) _ _ 0 0 100 eq_refl _ _ _).
  - vm_compute. reflexivity.
  - lia.
  - vm_compute. set_solver.
Defined.

End CleanupProps.

(* ------------------------------------------------------------------ *)
(** ** What a batch does to the file system *)

Module BatchFrameProps.

Import Video Encoder Batch.

(** [fs'] differs from [fs] at most on the paths of [touched]. *)
Definition frame (touched : string -> Prop) (fs fs' : FS.FS) : Prop :=
  FS.undeletable fs' = FS.undeletable fs /\
  forall p, ~ touched p -> FS.files fs' !! p = FS.files fs !! p.

Lemma frame_refl (T : string -> Prop) (fs : FS.FS) : frame T fs fs.
Proof. split; reflexivity. Qed.

Lemma frame_trans (T : string -> Prop) (fs1 fs2 fs3 : FS.FS) :
  frame T fs1 fs2 -> frame T fs2 fs3 -> frame T fs1 fs3.
Proof. intros [H1 H2] [G1 G2]. split; [congruence|]. intros p Hp. rewrite G2, H2; auto. Qed.

Lemma frame_mono (A B : string -> Prop) (fs fs' : FS.FS) :
  (forall p, A p -> B p) -> frame A fs fs' -> frame B fs fs'.
Proof. intros HAB [H1 H2]. split; [exact H1|]. intros p Hp. apply H2. auto. Qed.

Lemma frame_write (fs : FS.FS) (p : string) (sz : Z) : frame (eq p) fs (FS.write fs p sz).
Proof.
  split; [reflexivity|]. intros q Hq. unfold FS.write. simpl.
  apply lookup_insert_ne. exact Hq.
Qed.

Lemma frame_try_remove (fs : FS.FS) (p : string) : frame (eq p) fs (FS.try_remove fs p).
Proof.
  unfold FS.try_remove, FS.remove.
  destruct (FS.exists_ fs p && negb (bool_decide (p ∈ FS.undeletable fs)));
    [|apply frame_refl].
  split; [reflexivity|]. intros q Hq. simpl. apply lookup_delete_ne. exact Hq.
Qed.

Lemma encode_single_file_frame (self : VideoEncoder) (vf : VideoFile) (env : JobEnv)
    (fs : FS.FS) :
  frame (eq (get_output_filename vf)) fs (snd (encode_single_file self vf None env fs)).
Proof.
  unfold encode_single_file.
  assert (Hb : frame (eq (get_output_filename vf)) fs
                 (snd (encode_body self vf (get_output_filename vf) env fs))).
  { unfold encode_body.
    destruct (negb (FS.exists_ fs (file_path vf))); [apply frame_refl|].
    destruct (match Video.error vf with Some _ => true | None => false end);
      [apply frame_refl|].
    destruct (je_resolution env) as [sf|]; [|apply frame_refl].
    destruct (fst (Config.generate_ffmpeg_params _ _ _ _ _)); [|apply frame_refl].
    assert (Ha : forall w, frame (eq (get_output_filename vf)) fs
                   (match w with Some sz => FS.write fs (get_output_filename vf) sz
                            | None => fs end)).
    { intros [sz|]; [apply frame_write|apply frame_refl]. }
    destruct (je_run env) as [code w|w|]; [|apply Ha|apply frame_refl].
    destruct (negb (code =? 0)); [apply Ha|].
    destruct (FS.getsize _ _) as [[|sz|sz]|];
      [| destruct (je_output_has_video env) | destruct (je_output_has_video env) |]; simpl;
      first [apply Ha | eapply frame_trans; [apply Ha|apply frame_try_remove]]. }
  destruct (encode_body self vf (get_output_filename vf) env fs) as [[sz|e] fs1].
  - exact Hb.
  - simpl. destruct (FS.exists_ fs1 (get_output_filename vf)); [|exact Hb].
    eapply frame_trans; [exact Hb|apply frame_try_remove].
Qed.

Lemma batch_loop_frame (self : VideoEncoder) (del : bool) (sched : CancelSchedule)
    (i : nat) (jobs : list (VideoFile * JobEnv)) (st : Stats) (fs : FS.FS) :
  frame (fun p => exists vf env, In (vf, env) jobs /\
                    (p = get_output_filename vf \/ (del = true /\ p = file_path vf)))
    fs (snd (fst (fst (batch_loop self del sched i jobs st fs)))).
Proof.
  revert i st fs. induction jobs as [|[vf env] jobs IH]; intros i st fs; simpl;
    [apply frame_refl|].
  destruct (flag_at sched i); [apply frame_refl|].
  pose proof (encode_single_file_frame self vf env fs) as H1.
  destruct (encode_single_file self vf None env fs) as [r fs1]. simpl in H1.
  assert (H2 : frame (fun p => del = true /\ p = file_path vf) fs1
                 (snd (record del vf r st fs1))).
  { unfold record. destruct (success r); simpl; [|apply frame_refl].
    destruct del; [|apply frame_refl].
    eapply frame_mono; [|apply frame_try_remove]. intros p <-. auto. }
  destruct (record del vf r st fs1) as [st1 fs2]. simpl in H2.
  specialize (IH (S i) st1 fs2).
  destruct (batch_loop self del sched (S i) jobs st1 fs2) as [[[st' fs'] att] tr].
  simpl in *.
  eapply frame_trans; [eapply frame_mono; [|exact H1]|].
  { intros p <-. exists vf, env. auto. }
  eapply frame_trans; [eapply frame_mono; [|exact H2]|].
  { intros p [Hd ->]. exists vf, env. auto. }
  eapply frame_mono; [|exact IH].
  intros p (vf' & env' & Hin & Hp). exists vf', env'. auto.
Qed.

(** X10. A batch only changes the files of its own jobs: every path that is
    neither the output name of a job nor (with [delete_originals]) the
    source path of a job keeps exactly its contents, and the removal
    permissions stay as they were. *)
Theorem encode_batch_touches_only_job_files (self : VideoEncoder)
    (jobs : list (VideoFile * JobEnv)) (del : bool) (sched : CancelSchedule)
    (fs : FS.FS) (st : Stats) (fs' : FS.FS) (att : list string) (tr : list Stats) :
  encode_batch self jobs del sched fs = inl (st, fs', att, tr) ->
  FS.undeletable fs' = FS.undeletable fs /\
  forall p, (forall vf env, In (vf, env) jobs ->
               p <> get_output_filename vf /\ (del = true -> p <> file_path vf)) ->
  FS.files fs' !! p = FS.files fs !! p.
Proof.
  unfold encode_batch. destruct jobs as [|j js]; [discriminate|].
  pose proof (batch_loop_frame self del sched 1 (j :: js)
                (mkStats (length (j :: js)) 0 0 [] false) fs) as [H1 H2].
  destruct (batch_loop self del sched 1 (j :: js) _ fs) as [[[st1 fs1] att1] tr1].
  intros H. injection H as _ <- _ _. simpl in H1, H2.
  split; [exact H1|]. intros p Hp. apply H2.
  intros (vf & env & Hin & [E|[Hd E]]); destruct (Hp vf env Hin) as [Ha Hb]; [exact (Ha E)|exact (Hb Hd E)].
Qed.

Lemma encode_batch_touches_only_job_files_witness :
  let vf := mkVideoFile "a.mp4" 1000 (Some "800") (Some "640x360") (Some "h264") None in
  let env := mkJobEnv (Some None) (Exited 0 (Some 500)) true in
  let fs := FS.mkFS (<["a.mp4" := 1000]> (<["notes.txt" := 7]> ∅)) ∅ in
  exists st fs' att tr,
    encode_batch (init []) [(vf, env)] true NoCancel fs = inl (st, fs', att, tr) /\
    FS.files fs' !! "notes.txt" = Some 7.
Proof.
  cbv zeta.
  lazymatch goal with
  | |- exists st fs' att tr, ?L = inl _ /\ _ =>
      destruct L as [[[[st fs'] att] tr]|e] eqn:E
  end.
  - exists st, fs', att, tr. split; [reflexivity|].
    apply (proj2 (encode_batch_touches_only_job_files _ _ _ _ _ _ _ _ _ E)).
    intros vf env [H|[]]. injection H as <- <-.
    split; [|intros _]; vm_compute; discriminate.
  - vm_compute in E. discriminate.
Defined.

End BatchFrameProps.

(* ------------------------------------------------------------------ *)
(** ** [ProgressDisplay] bookkeeping *)

Module ProgressProps.

Import Progress.

(** [update_first] changes at most the first entry carrying [name]. *)
Lemma update_first_untouched (name : string) (f : FileStat -> FileStat)
    (xs : list FileStat) (j : nat) (x : FileStat) :
  nth_error xs j = Some x ->
  filename x <> name \/ In name (map filename (firstn j xs)) ->
  nth_error (update_first name f xs) j = Some x.
Proof.
  revert j. induction xs as [|x0 xs IH]; intros j Hj Hc; [destruct j; discriminate|].
  simpl. destruct (String.eqb (filename x0) name) eqn:E.
  - apply String.eqb_eq in E. destruct j as [|j]; simpl in *.
    + injection Hj as ->. destruct Hc as [Hc|[]]. contradiction.
    + exact Hj.
  - apply String.eqb_neq in E. destruct j as [|j]; simpl in *; [exact Hj|].
    apply IH; [exact Hj|]. destruct Hc as [Hc|[Hc|Hc]]; auto; contradiction.
Qed.

Lemma update_first_names (name : string) (f : FileStat -> FileStat) (xs : list FileStat) :
  (forall x, filename (f x) = filename x) ->
  map filename (update_first name f xs) = map filename xs.
Proof.
  intros Hf. induction xs as [|x xs IH]; simpl; [reflexivity|].
  destruct (String.eqb (filename x) name); simpl; rewrite ?Hf, ?IH; reflexivity.
Qed.

Definition not_initialize (c : DisplayCall) : Prop :=
  match c with Initialize _ _ => False | _ => True end.

(** X11. The entries of a file list whose name already occurs earlier in it
    are never found by the name lookup of [start_file_processing] and
    [complete_file_processing]: they stay ["pending"]. [encode_batch]
    passes base names, so two discovered files with the same name in
    different folders leave the second one shown as pending even after
    it was encoded. *)
Theorem later_duplicate_stays_pending (d : ProgressDisplay) (total : nat)
    (l : list string) (calls : list DisplayCall) (j : nat) (n : string) :
  Forall not_initialize calls ->
  nth_error l j = Some n -> In n (firstn j l) ->
  nth_error (file_stats (run (initialize_session d total l) calls)) j
  = Some (mkFileStat n "pending" None).
Proof.
  intros Hc Hj Hin. unfold run.
  assert (Hinv : map filename (file_stats (initialize_session d total l)) = l /\
                 nth_error (file_stats (initialize_session d total l)) j
                 = Some (mkFileStat n "pending" None)).
  { simpl. rewrite map_map. simpl. rewrite map_id. split; [reflexivity|].
    rewrite nth_error_map, Hj. reflexivity. }
  revert Hinv. generalize (initialize_session d total l) as e.
  induction Hc as [|c calls Hc _ IH]; intros e [H1 H2]; simpl; [exact H2|].
  apply IH.
  assert (Hkeep : forall name f, (forall x, filename (f x) = filename x) ->
            map filename (update_first name f (file_stats e)) = l /\
            nth_error (update_first name f (file_stats e)) j
            = Some (mkFileStat n "pending" None)).
  { intros name f Hf. split; [rewrite update_first_names; auto|].
    apply update_first_untouched; [exact H2|].
    destruct (String.eqb n name) eqn:E; [apply String.eqb_eq in E; subst name|
                                          left; apply String.eqb_neq; exact E].
    right. rewrite <- firstn_map, H1. exact Hin. }
  destruct c as [t fl|name|name ok err]; [contradiction|apply Hkeep; reflexivity|].
  apply Hkeep. reflexivity.
Qed.

Lemma later_duplicate_stays_pending_witness :
  nth_error (file_stats (run (initialize_session new_display 2 ["clip.mp4"; "clip.mp4"])
               [Start "clip.mp4"; Complete "clip.mp4" true None;
                Start "clip.mp4"; Complete "clip.mp4" true None])) 1
  = Some (mkFileStat "clip.mp4" "pending" None).
Proof.
  apply later_duplicate_stays_pending.
  - repeat constructor.
  - reflexivity.
  - simpl. left. reflexivity.
Defined.

Lemma count_failed_update (name : string) (f : FileStat -> FileStat) (xs : list FileStat) :
  (length (List.filter (fun x => String.eqb (status x) "failed") (update_first name f xs))
   <= S (length (List.filter (fun x => String.eqb (status x) "failed") xs)))%nat /\
  ((forall x, String.eqb (status (f x)) "failed" = false) ->
   (length (List.filter (fun x => String.eqb (status x) "failed") (update_first name f xs))
    <= length (List.filter (fun x => String.eqb (status x) "failed") xs))%nat).
Proof.
  induction xs as [|x xs [IH1 IH2]]; simpl; [split; [lia|intros _; lia]|].
  destruct (String.eqb (filename x) name); simpl.
  - split.
    + destruct (String.eqb (status (f x)) "failed"), (String.eqb (status x) "failed");
        simpl; lia.
    + intros H. rewrite H. destruct (String.eqb (status x) "failed"); simpl; lia.
  - split.
    + destruct (String.eqb (status x) "failed"); simpl; lia.
    + intros H. specialize (IH2 H). destruct (String.eqb (status x) "failed"); simpl; lia.
Qed.

Lemma filter_map_pending (fl : list string) :
  List.filter (fun x => String.eqb (status x) "failed")
    (map (fun n => mkFileStat n "pending" None) fl) = [].
Proof. induction fl as [|n fl IH]; simpl; [reflexivity|]. exact IH. Qed.

(** X12. The final summary lists at most as many failed entries as the
    [failed_files] counter says: the counter counts every failing
    [complete_file_processing] call, the list only the entries the name
    lookup reached, and [initialize_session] resets the list but not the
    counters. *)
Theorem failed_entries_bounded (calls : list DisplayCall) :
  (length (failed_entries (run new_display calls))
   <= failed_files (session_stats (run new_display calls)))%nat.
Proof.
  unfold run, failed_entries.
  assert (H0 : (length (List.filter (fun x => String.eqb (status x) "failed")
                          (file_stats new_display))
                <= failed_files (session_stats new_display))%nat) by (simpl; lia).
  revert H0. generalize new_display as d.
  induction calls as [|c calls IH]; intros d Hd; simpl; [exact Hd|].
  apply IH. destruct c as [t fl|name|name ok err]; simpl.
  - rewrite filter_map_pending. simpl. lia.
  - destruct (count_failed_update name
                (fun x => mkFileStat (filename x) "processing" (error_message x))
                (file_stats d)) as [_ H].
    specialize (H (fun _ => eq_refl)). lia.
  - destruct (count_failed_update name
                (fun x => mkFileStat (filename x) (if ok then "completed" else "failed")
                            (if Config.truthy err then err else None))
                (file_stats d)) as [H1 H2].
    destruct ok; simpl.
    + specialize (H2 (fun _ => eq_refl)). lia.
    + lia.
Qed.

End ProgressProps.

(* ------------------------------------------------------------------ *)
(** ** The prompts of [VideoEncoderApp] *)

Module AppProps.

Import Config Presets App.

Lemma ask_yes_no_consumes (d : option string) (inputs : list string) (b : bool)
    (rest : list string) :
  ask_yes_no d inputs = Some (b, rest) ->
  exists consumed, inputs = consumed ++ rest /\
    (b = true -> d <> Some "y" -> (1 <= length (List.filter is_yes consumed))%nat).
Proof.
  revert b rest. induction inputs as [|line inputs IH]; intros b rest H; [discriminate|].
  simpl in H.
  destruct (String.eqb (PyText.lower (PyText.strip line)) "" &&
            match d with Some _ => true | None => false end) eqn:Ee.
  { injection H as Hb <-. exists [line]. split; [reflexivity|].
    intros Hb' Hd. subst b. destruct d as [dd|]; [|discriminate].
    apply String.eqb_eq in Hb'. subst dd. contradiction. }
  destruct (String.eqb (PyText.lower (PyText.strip line)) "y" ||
            String.eqb (PyText.lower (PyText.strip line)) "yes") eqn:Ey.
  { injection H as <- <-. exists [line]. split; [reflexivity|].
    intros _ _. simpl. unfold is_yes. cbv zeta. rewrite Ey. simpl. lia. }
  destruct (String.eqb (PyText.lower (PyText.strip line)) "n" ||
            String.eqb (PyText.lower (PyText.strip line)) "no") eqn:En.
  { injection H as <- <-. exists [line]. split; [reflexivity|]. discriminate. }
  destruct (IH b rest H) as (consumed & -> & Hc).
  exists (line :: consumed). split; [reflexivity|].
  intros Hb Hd. specialize (Hc Hb Hd). simpl. destruct (is_yes line); simpl; lia.
Qed.

(** X13. Deleting the originals needs two explicit yes answers after the
    recursion question: the second question defaults to no, the
    confirmation has no default, and any other line is asked again. *)
Theorem deletion_needs_two_explicit_yes (inputs rest : list string) (recursive : bool) :
  get_processing_options inputs = Some ((recursive, true), rest) ->
  exists first later,
    inputs = first ++ later ++ rest /\
    ask_yes_no (Some "y") inputs = Some (recursive, later ++ rest) /\
    (2 <= length (List.filter is_yes later))%nat.
Proof.
  unfold get_processing_options.
  destruct (ask_yes_no (Some "y") inputs) as [[r r1]|] eqn:E1; [|discriminate].
  destruct (ask_yes_no (Some "n") r1) as [[del r2]|] eqn:E2; [|discriminate].
  destruct del; [|discriminate].
  destruct (ask_yes_no None r2) as [[conf r3]|] eqn:E3; [|discriminate].
  intros H. injection H as Hr Hc Hrest. subst recursive conf rest.
  destruct (ask_yes_no_consumes _ _ _ _ E1) as (c1 & -> & _).
  destruct (ask_yes_no_consumes _ _ _ _ E2) as (c2 & -> & H2).
  destruct (ask_yes_no_consumes _ _ _ _ E3) as (c3 & -> & H3).
  specialize (H2 eq_refl ltac:(discriminate)). specialize (H3 eq_refl ltac:(discriminate)).
  exists c1, (c2 ++ c3). rewrite <- !app_assoc. split; [reflexivity|]. split.
  - reflexivity.
  - rewrite List.filter_app, length_app. lia.
Qed.

Lemma deletion_needs_two_explicit_yes_witness :
  get_processing_options [""; "y"; "  YES "; "rest"] = Some ((true, true), ["rest"]) /\
  exists first later,
    [""; "y"; "  YES "; "rest"] = first ++ later ++ ["rest"] /\
    ask_yes_no (Some "y") [""; "y"; "  YES "; "rest"] = Some (true, later ++ ["rest"]) /\
    (2 <= length (List.filter is_yes later))%nat.
Proof.
  assert (H : get_processing_options [""; "y"; "  YES "; "rest"]
              = Some ((true, true), ["rest"])) by (vm_compute; reflexivity).
  split; [exact H|].
  exact (deletion_needs_two_explicit_yes _ _ _ H).
Defined.

(** Comparisons of binary64 values through their specification. *)
Lemma SFcompare_swap (x y : spec_float) :
  SFcompare y x = option_map CompOpp (SFcompare x y).
Proof.
  assert (Hp : forall mx my, Pos.compare_cont Eq my mx = CompOpp (Pos.compare_cont Eq mx my)).
  { intros mx my. rewrite Pos.compare_cont_antisym. reflexivity. }
  destruct x as [sx|sx| |sx mx ex], y as [sy|sy| |sy my ey];
    try destruct sx; try destruct sy; try reflexivity; simpl;
    replace (ey ?= ex) with (CompOpp (ex ?= ey)) by (symmetry; apply Z.compare_antisym);
    destruct (Z.compare ex ey); simpl; try reflexivity;
    rewrite Hp; try reflexivity; destruct (Pos.compare_cont Eq mx my); reflexivity.
Qed.

Lemma leb_not_ltb_eqb (x y : float) :
  PrimFloat.leb x y = true -> PrimFloat.ltb x y = false -> PrimFloat.eqb x y = true.
Proof.
  rewrite FloatAxioms.leb_spec, FloatAxioms.ltb_spec, FloatAxioms.eqb_spec. unfold SFleb, SFltb, SFeqb.
  destruct (SFcompare (Prim2SF x) (Prim2SF y)) as [[]|]; congruence.
Qed.

Lemma eqb_sym_true (x y : float) : PrimFloat.eqb x y = true -> PrimFloat.eqb y x = true.
Proof.
  rewrite !FloatAxioms.eqb_spec. unfold SFeqb. rewrite (SFcompare_swap (Prim2SF x) (Prim2SF y)).
  destruct (SFcompare (Prim2SF x) (Prim2SF y)) as [[]|]; simpl; congruence.
Qed.

Lemma eqb_refl_leb (lo x : float) : PrimFloat.leb lo x = true -> PrimFloat.eqb x x = true.
Proof.
  rewrite FloatAxioms.leb_spec, FloatAxioms.eqb_spec. unfold SFleb, SFeqb.
  destruct (Prim2SF x) as [sx|sx| |sx mx ex]; destruct (Prim2SF lo) as [sl|sl| |sl ml el];
    try destruct sx; try destruct sl; simpl; try discriminate; try reflexivity;
    intros _; rewrite Z.compare_refl, Pos.compare_cont_refl; reflexivity.
Qed.

(** [max(lo, min(hi, x))] equals [x] (as floats compare) when [x] lies in
    [lo, hi]. *)
Lemma clamp_inside (lo hi x : float) :
  PrimFloat.ltb lo hi = true -> PrimFloat.leb lo x = true -> PrimFloat.leb x hi = true ->
  PrimFloat.eqb (Py.fmax lo (Py.fmin hi x)) x = true.
Proof.
  intros Hlh Hlx Hxh. unfold Py.fmax, Py.fmin.
  destruct (PrimFloat.ltb x hi) eqn:Exh.
  - destruct (PrimFloat.ltb lo x) eqn:Elx.
    + exact (eqb_refl_leb lo x Hlx).
    + exact (leb_not_ltb_eqb lo x Hlx Elx).
  - rewrite Hlh. apply eqb_sym_true. exact (leb_not_ltb_eqb x hi Hxh Exh).
Qed.

Section Parsers.

Variable parse_int : string -> option Z.
Variable parse_float : string -> option float.

Definition crf_range (v : float) : Prop :=
  PrimFloat.leb (Py.float_of_Z 0) v = true /\ PrimFloat.leb v (Py.float_of_Z 51) = true.

Definition vbr_range (v : float) : Prop :=
  PrimFloat.leb 0.1 v = true /\ PrimFloat.leb v 10.0 = true.

Lemma custom_crf_range (inputs : list string) (m : EncodingMethod) (v : float) (p : string)
    (rest : list string) :
  custom_crf parse_float inputs = Some ((m, v, p), rest) ->
  m = CRF /\ p = "medium" /\ crf_range v.
Proof.
  induction inputs as [|line inputs IH]; simpl; [discriminate|].
  destruct (parse_float line) as [x|]; [|exact IH].
  destruct (PrimFloat.leb (Py.float_of_Z 0) x && PrimFloat.leb x (Py.float_of_Z 51)) eqn:E;
    [|exact IH].
  intros H. injection H as <- <- <- _. apply andb_true_iff in E. auto.
Qed.

Lemma custom_vbr_range (inputs : list string) (m : EncodingMethod) (v : float) (p : string)
    (rest : list string) :
  custom_vbr parse_float inputs = Some ((m, v, p), rest) ->
  m = VBR /\ p = "medium" /\ vbr_range v.
Proof.
  induction inputs as [|line inputs IH]; simpl; [discriminate|].
  destruct (parse_float line) as [x|]; [|exact IH].
  destruct (PrimFloat.leb 0.1 x && PrimFloat.leb x 10.0) eqn:E; [|exact IH].
  intros H. injection H as <- <- <- _. apply andb_true_iff in E. auto.
Qed.

Lemma configure_crf_range (inputs : list string) (m : EncodingMethod) (v : float) (p : string)
    (rest : list string) :
  configure_crf parse_int parse_float inputs = Some ((m, v, p), rest) ->
  m = CRF /\ p = "medium" /\ crf_range v.
Proof.
  induction inputs as [|line inputs IH]; cbn [configure_crf]; [discriminate|].
  destruct (parse_int _) as [n|]; [|exact IH].
  destruct ((0 <=? n - 1) && (n - 1 <? Z.of_nat (length CRF_PRESETS))).
  - assert (Hin : In (nth (Z.to_nat (n - 1)) CRF_PRESETS ("", 0)) CRF_PRESETS \/
                  nth (Z.to_nat (n - 1)) CRF_PRESETS ("", 0) = ("", 0)).
    { destruct (Nat.lt_ge_cases (Z.to_nat (n - 1)) (length CRF_PRESETS)).
      - left. apply nth_In. exact H.
      - right. apply nth_overflow. exact H. }
    destruct (nth (Z.to_nat (n - 1)) CRF_PRESETS ("", 0)) as [nm k].
    intros H. injection H as <- <- <- _. split; [reflexivity|]. split; [reflexivity|].
    unfold CRF_PRESETS in Hin. simpl in Hin. unfold crf_range.
    repeat destruct Hin as [Hin|Hin]; try contradiction; inversion Hin; subst;
      split; vm_compute; reflexivity.
  - destruct (n - 1 =? Z.of_nat (length CRF_PRESETS)); [apply custom_crf_range|exact IH].
Qed.

Lemma configure_vbr_range (inputs : list string) (m : EncodingMethod) (v : float) (p : string)
    (rest : list string) :
  configure_vbr parse_int parse_float inputs = Some ((m, v, p), rest) ->
  m = VBR /\ p = "medium" /\ vbr_range v.
Proof.
  induction inputs as [|line inputs IH]; cbn [configure_vbr]; [discriminate|].
  destruct (parse_int _) as [n|]; [|exact IH].
  destruct ((0 <=? n - 1) && (n - 1 <? Z.of_nat (length VBR_PRESETS))) eqn:Ei.
  - assert (Hin : In (nth (Z.to_nat (n - 1)) VBR_PRESETS ("", 0%float)) VBR_PRESETS).
    { apply nth_In. apply andb_true_iff in Ei as [E1 E2].
      apply Z.leb_le in E1. apply Z.ltb_lt in E2. lia. }
    destruct (nth (Z.to_nat (n - 1)) VBR_PRESETS ("", 0%float)) as [nm k].
    intros H. injection H as <- <- <- _. split; [reflexivity|]. split; [reflexivity|].
    unfold VBR_PRESETS in Hin. simpl in Hin. unfold vbr_range.
    repeat destruct Hin as [Hin|Hin]; try contradiction; inversion Hin; subst;
      split; vm_compute; reflexivity.
  - destruct (n - 1 =? Z.of_nat (length VBR_PRESETS)); [apply custom_vbr_range|exact IH].
Qed.

(** X14. Whatever lines the user types, a method that
    [select_encoding_method] returns comes with the preset ["medium"] and
    a value inside the range the configuration manager clamps to ([0, 51]
    for CRF, [0.1, 10.0] for VBR), so [set_encoding_method] stores the
    chosen method and a value equal to the one chosen: the clamp never
    alters a menu choice. *)
Theorem menu_choice_stored_unchanged (inputs rest : list string) (m : EncodingMethod)
    (v : float) (p : string) (self : Encoder.VideoEncoder) :
  select_encoding_method parse_int parse_float inputs = Some ((m, v, p), rest) ->
  p = "medium" /\
  (m = CRF -> crf_range v) /\ (m = VBR -> vbr_range v) /\
  method (Encoder.encoding_config (EncoderOps.set_encoding_method self m v p)) = m /\
  PrimFloat.eqb (value (Encoder.encoding_config (EncoderOps.set_encoding_method self m v p))) v
  = true.
Proof.
  intros H.
  assert (Hr : (m = CRF /\ p = "medium" /\ crf_range v) \/ (m = VBR /\ p = "medium" /\ vbr_range v)).
  { induction inputs as [|line inputs IH]; simpl in H; [discriminate|].
    destruct (String.eqb _ "1"); [left; exact (configure_crf_range _ _ _ _ _ H)|].
    destruct (String.eqb _ "2"); [right; exact (configure_vbr_range _ _ _ _ _ H)|].
    exact (IH H). }
  destruct Hr as [(-> & -> & [H1 H2])|(-> & -> & [H1 H2])].
  - split; [reflexivity|]. split; [intros _; split; assumption|]. split; [discriminate|].
    split; [reflexivity|]. simpl. apply clamp_inside; [reflexivity|exact H1|exact H2].
  - split; [reflexivity|]. split; [discriminate|]. split; [intros _; split; assumption|].
    split; [reflexivity|]. simpl. apply clamp_inside; [reflexivity|exact H1|exact H2].
Qed.

End Parsers.

(** Python's [int()] and [float()] on the lines of the witness below. *)
Definition parse_int_small (s : string) : option Z :=
  match s with "1" => Some 1 | "2" => Some 2 | "3" => Some 3 | "6" => Some 6 | _ => None end.

Definition parse_float_small (s : string) : option float :=
  match s with "-0.0" => Some (-0)%float | "22.5" => Some 22.5%float | _ => None end.

Lemma menu_choice_stored_unchanged_witness :
  select_encoding_method parse_int_small parse_float_small ["1"; "6"; "-0.0"]
  = Some ((CRF, (-0)%float, "medium"), []) /\
  PrimFloat.eqb (value (Encoder.encoding_config
     (EncoderOps.set_encoding_method (Encoder.init []) CRF (-0)%float "medium"))) (-0)%float
  = true.
Proof.
  assert (H : select_encoding_method parse_int_small parse_float_small ["1"; "6"; "-0.0"]
              = Some ((CRF, (-0)%float, "medium"), [])) by (vm_compute; reflexivity).
  split; [exact H|].
  exact (proj2 (proj2 (proj2 (proj2 (menu_choice_stored_unchanged
           parse_int_small parse_float_small _ _ _ _ _ (Encoder.init []) H))))).
Defined.

End AppProps.
